(** * Weather server: place resolution and forecast reshaping

    A shallow embedding of [main.py]: the text normaliser [_clean_place],
    the coordinate parser [_parse_latlon], the geocoding resolver
    [_geocode] with its candidate queries, and the tool
    [get_weather_forecast] with the reshaping of the provider's daily
    arrays.

    Python strings are sequences of Unicode code points; the regular
    expressions of the source are kept as patterns and run by a small
    backtracking matcher with Python's priorities (leftmost, greedy).
    The network is a world that answers one request at a time; every
    request made is logged. *)

From Stdlib Require Import List String Ascii NArith ZArith Bool Arith Lia.
Import ListNotations.

Set Implicit Arguments.
Set Warnings "-register-all".

(** ** Python strings *)

Definition char := N.
Definition pystr := list char.

(** A string literal of the source, as code points. *)
Definition py (s : string) : pystr := map N_of_ascii (list_ascii_of_string s).

Definition ch (a : ascii) : char := N_of_ascii a.

Definition str_eqb (a b : pystr) : bool :=
  if list_eq_dec N.eq_dec a b then true else false.

(** What Python itself provides and the source only calls: the Unicode
    tables behind [\s], [\w] and [\d] outside ASCII, the type of floats
    with [float(...)] and its truth value, and [repr] of a string. *)
Class PyBuiltins := {
  uni_space : char -> bool;
  uni_word : char -> bool;
  uni_digit : char -> bool;
  pyfloat : Type;
  float : pystr -> pyfloat;
  float_bool : pyfloat -> bool;
  repr : pystr -> pystr
}.

Section Text.

Context {PB : PyBuiltins}.

Definition in_range (lo hi c : N) : bool := ((lo <=? c) && (c <=? hi))%N.

(** [\s] and [str.isspace]: in ASCII, tab to carriage return, the four
    separators U+001C..U+001F and the space. *)
Definition is_space (c : char) : bool :=
  if (c <? 128)%N
  then in_range 9 13 c || in_range 28 32 c
  else uni_space c.

(** [\d]: in ASCII, 0 to 9. *)
Definition is_digit (c : char) : bool :=
  if (c <? 128)%N then in_range 48 57 c else uni_digit c.

(** [\w]: in ASCII, letters, digits and the underscore. *)
Definition is_word (c : char) : bool :=
  if (c <? 128)%N
  then in_range 48 57 c || in_range 65 90 c || in_range 97 122 c || (c =? 95)%N
  else uni_word c.

Definition is_char (a : ascii) (c : char) : bool := (c =? ch a)%N.

(** ** List helpers *)

Fixpoint drop_while (p : char -> bool) (s : pystr) : pystr :=
  match s with
  | c :: s' => if p c then drop_while p s' else s
  | [] => []
  end.

Fixpoint take_while (p : char -> bool) (s : pystr) : pystr :=
  match s with
  | c :: s' => if p c then c :: take_while p s' else []
  | [] => []
  end.

(** [s.strip()] *)
Definition strip (s : pystr) : pystr :=
  rev (drop_while is_space (rev (drop_while is_space s))).

(** [sep.join(parts)] *)
Fixpoint join (sep : pystr) (parts : list pystr) : pystr :=
  match parts with
  | [] => []
  | [p] => p
  | p :: rest => p ++ sep ++ join sep rest
  end.

(** [c in s] for a one-character [c] *)
Definition contains (a : ascii) (s : pystr) : bool := existsb (is_char a) s.

(** [s.split(c)[0]]: the text before the first [c] *)
Definition split_first (a : ascii) (s : pystr) : pystr :=
  take_while (fun c => negb (is_char a c)) s.

(** [x in xs] for a list of strings *)
Definition str_in (x : pystr) (xs : list pystr) : bool := existsb (str_eqb x) xs.

(** ** Regular expressions

    The fragment the source uses: character sets, sequence, greedy
    option, greedy repetition of a character set, numbered groups and
    the two anchors. *)

Inductive regex : Type :=
| RSet (p : char -> bool)
| RSeq (r1 r2 : regex)
| ROpt (r : regex)
| RStar (p : char -> bool)
| RGroup (n : nat) (r : regex)
| RBol
| REol.

Definition RPlus (p : char -> bool) : regex := RSeq (RSet p) (RStar p).

(** The text of the groups matched so far. *)
Definition groups := list (nat * pystr).

Fixpoint group (n : nat) (g : groups) : pystr :=
  match g with
  | (m, t) :: g' => if Nat.eqb n m then t else group n g'
  | [] => []
  end.

Section Matcher.

Variable A : Type.

(** A continuation gets the position reached, the text left and the
    groups, and answers [None] to ask for the next alternative. *)
Definition cont := nat -> pystr -> groups -> option A.

(** [p*]: the longest run first, then shorter ones. *)
Fixpoint star (p : char -> bool) (i : nat) (s : pystr) (g : groups) (k : cont)
  : option A :=
  match s with
  | c :: s' =>
      if p c
      then match star p (S i) s' g k with
           | Some a => Some a
           | None => k i s g
           end
      else k i s g
  | [] => k i s g
  end.

(** [$] without MULTILINE: at the end, or before a final newline. *)
Definition at_eol (s : pystr) : bool :=
  match s with
  | [] => true
  | [c] => (c =? 10)%N
  | _ => false
  end.

Fixpoint rmatch (r : regex) (i : nat) (s : pystr) (g : groups) (k : cont)
  : option A :=
  match r with
  | RSet p =>
      match s with
      | c :: s' => if p c then k (S i) s' g else None
      | [] => None
      end
  | RSeq r1 r2 => rmatch r1 i s g (fun j t g' => rmatch r2 j t g' k)
  | ROpt r1 =>
      match rmatch r1 i s g k with
      | Some a => Some a
      | None => k i s g
      end
  | RStar p => star p i s g k
  | RGroup n r1 =>
      rmatch r1 i s g (fun j t g' => k j t ((n, firstn (j - i) s) :: g'))
  | RBol => if Nat.eqb i 0 then k i s g else None
  | REol => if at_eol s then k i s g else None
  end.

End Matcher.

(** [re.match(r, s)]: the groups of the first match at position 0. *)
Definition re_match (r : regex) (s : pystr) : option groups :=
  rmatch r 0 s [] (fun _ _ g => Some g).

(** The match of [r] that starts at position [i], as the position after
    it and the text left. *)
Definition match_here (r : regex) (i : nat) (s : pystr) : option (nat * pystr) :=
  rmatch r i s [] (fun j t _ => Some (j, t)).

(** [re.sub(r, repl, s)] for a literal [repl]: scan from the left, replace
    each match and go on after it; an empty match is replaced and the next
    character copied. Every step moves on, so [length s + 1] steps are
    enough. *)
Fixpoint sub_go (fuel : nat) (r : regex) (repl : pystr) (i : nat) (s : pystr)
  : pystr :=
  match fuel with
  | 0 => s
  | S fuel' =>
      let copy :=
        match s with
        | c :: s' => c :: sub_go fuel' r repl (S i) s'
        | [] => []
        end in
      match match_here r i s with
      | Some (j, t) =>
          if Nat.ltb i j then repl ++ sub_go fuel' r repl j t else repl ++ copy
      | None => copy
      end
  end.

Definition re_sub (r : regex) (repl : pystr) (s : pystr) : pystr :=
  sub_go (S (List.length s)) r repl 0 s.

Declare Scope re_scope.
Delimit Scope re_scope with re.
Bind Scope re_scope with regex.
Infix "+>" := RSeq (at level 61, right associativity) : re_scope.

(** ** The patterns of the source *)

(** [\s+] *)
Definition re_spaces : regex := RPlus is_space.

(** [[,\s]] *)
Definition comma_or_space (c : char) : bool := is_char "," c || is_space c.

(** [[,\s]+$] *)
Definition re_trailing : regex := (RPlus comma_or_space +> REol)%re.

(** [[+-]?\d+(?:\.\d+)?] *)
Definition re_number : regex :=
  (ROpt (RSet (fun c => is_char "+" c || is_char "-" c)) +>
   RPlus is_digit +>
   ROpt (RSet (is_char ".") +> RPlus is_digit))%re.

(** [^\s*([+-]?\d+(?:\.\d+)?)\s*[, ]\s*([+-]?\d+(?:\.\d+)?)\s*$] *)
Definition re_latlon : regex :=
  (RBol +> RStar is_space +>
   RGroup 1 re_number +>
   RStar is_space +> RSet (fun c => is_char "," c || is_char " " c) +> RStar is_space +>
   RGroup 2 re_number +>
   RStar is_space +> REol)%re.

(** [[^\w\s\-']] *)
Definition is_punct (c : char) : bool :=
  negb (is_word c || is_space c || is_char "-" c || is_char "'" c).

Definition re_punct : regex := RSet is_punct.

(** ** The normaliser and the coordinate parser *)

(** [_clean_place(s)]; [None] is Python's [None], which [s or ""] turns
    into the empty string. *)
Definition _clean_place (s : option pystr) : pystr :=
  let s := match s with Some t => t | None => [] end in
  let s := strip (re_sub re_spaces (py " ") s) in
  let s := re_sub re_trailing [] s in
  s.

(** [_parse_latlon(s)] *)
Definition _parse_latlon (s : pystr) : option (pyfloat * pyfloat) :=
  match re_match re_latlon s with
  | Some m => Some (float (group 1 m), float (group 2 m))
  | None => None
  end.

End Text.

(** ** The normaliser, as it is described

    The same three steps without regular expressions, to compare the
    source against. *)

Section TextSpec.

Context {PB : PyBuiltins}.

(** Every run of whitespace becomes one space; [in_run] says that the
    character before was whitespace. *)
Fixpoint squeeze (in_run : bool) (s : pystr) : pystr :=
  match s with
  | [] => []
  | c :: s' =>
      if is_space c
      then if in_run then squeeze true s' else ch " " :: squeeze true s'
      else c :: squeeze false s'
  end.

Definition collapse_runs (s : pystr) : pystr := squeeze false s.

(** The text without its longest suffix of characters of [p]. *)
Definition rstrip (p : char -> bool) (s : pystr) : pystr :=
  rev (drop_while p (rev s)).

Fixpoint drop_trailing (p : char -> bool) (s : pystr) : pystr :=
  match s with
  | [] => []
  | c :: s' => if forallb p s then [] else c :: drop_trailing p s'
  end.

(** Every character that is neither a word character nor whitespace,
    hyphen or apostrophe becomes a space. *)
Definition blank_punct (s : pystr) : pystr :=
  map (fun c => if is_punct c then ch " " else c) s.

Definition normalize_spec (s : pystr) : pystr :=
  rstrip comma_or_space
    (rstrip is_space (drop_while is_space (collapse_runs s))).

(** The first character, if any, is not in [p]. *)
Definition starts_clean (p : char -> bool) (s : pystr) : bool :=
  match s with
  | c :: _ => negb (p c)
  | [] => true
  end.

(** The last character, if any, is not in [p]. *)
Definition ends_clean (p : char -> bool) (s : pystr) : bool :=
  starts_clean p (rev s).

(** Every whitespace character is a space, and none follows another. *)
Fixpoint single_spaced (s : pystr) : bool :=
  match s with
  | [] => true
  | c :: s' =>
      (if is_space c
       then (c =? ch " ")%N && starts_clean is_space s'
       else true)
      && single_spaced s'
  end.

(** A text in normal form: single spaces only, no whitespace in front,
    no comma or whitespace at the end. *)
Definition normal_form (t : pystr) : Prop :=
  single_spaced t = true
  /\ starts_clean is_space t = true
  /\ ends_clean comma_or_space t = true.

End TextSpec.

(** ** Python values, exceptions and the network *)

Section Values.

Context {PB : PyBuiltins}.

(** What [r.json()] can return and what the tool builds. A dictionary is
    the list of its items in insertion order, each key once. *)
Inductive pyval : Type :=
| VNone
| VBool (b : bool)
| VInt (z : Z)
| VFloat (f : pyfloat)
| VStr (s : pystr)
| VList (l : list pyval)
| VDict (d : list (pystr * pyval)).

Inductive exn : Type :=
| TransportError
| HTTPStatusError (status : Z)
| JSONDecodeError
| AttributeError
| TypeError
| IndexError
| KeyError (k : pyval)
| ValueError (msg : pystr)
| ValidationError.

Inductive result (A : Type) : Type :=
| Ok (a : A)
| Raise (e : exn).

Arguments Ok {A} a.
Arguments Raise {A} e.

Definition rbind {A B} (m : result A) (f : A -> result B) : result B :=
  match m with
  | Ok a => f a
  | Raise e => Raise e
  end.

(** [bool(v)] *)
Definition py_bool (v : pyval) : bool :=
  match v with
  | VNone => false
  | VBool b => b
  | VInt z => negb (z =? 0)%Z
  | VFloat f => float_bool f
  | VStr s => match s with [] => false | _ => true end
  | VList l => match l with [] => false | _ => true end
  | VDict d => match d with [] => false | _ => true end
  end.

Fixpoint lookup (k : pystr) (d : list (pystr * pyval)) : option pyval :=
  match d with
  | (k', v) :: d' => if str_eqb k k' then Some v else lookup k d'
  | [] => None
  end.

(** [v.get(k, default)]: only a dictionary has [get]. *)
Definition py_get (v : pyval) (k : pystr) (default : pyval) : result pyval :=
  match v with
  | VDict d => Ok (match lookup k d with Some x => x | None => default end)
  | _ => Raise AttributeError
  end.

(** [v[k]] for a string [k] *)
Definition getitem_key (v : pyval) (k : pystr) : result pyval :=
  match v with
  | VDict d => match lookup k d with Some x => Ok x | None => Raise (KeyError (VStr k)) end
  | _ => Raise TypeError
  end.

(** [v[i]] for an integer [i >= 0]; the keys of a JSON object are strings. *)
Definition getitem_idx (v : pyval) (i : nat) : result pyval :=
  match v with
  | VList l => match nth_error l i with Some x => Ok x | None => Raise IndexError end
  | VStr s => match nth_error s i with Some c => Ok (VStr [c]) | None => Raise IndexError end
  | VDict _ => Raise (KeyError (VInt (Z.of_nat i)))
  | _ => Raise TypeError
  end.

(** [len(v)] *)
Definition py_len (v : pyval) : result nat :=
  match v with
  | VList l => Ok (List.length l)
  | VStr s => Ok (List.length s)
  | VDict d => Ok (List.length d)
  | _ => Raise TypeError
  end.

(** A GET request of the HTTP client. *)
Record request : Type := {
  url : pystr;
  params : list (pystr * pyval);
  headers : list (pystr * pystr)
}.

(** What the client gets back: nothing (timeout, connection failure), or
    a status and a body that is JSON or not. *)
Inductive http_outcome : Type :=
| NoResponse
| Response (status : Z) (body : option pyval).

End Values.

Arguments Ok {PB A} a.
Arguments Raise {PB A} e.

(** The two services, as a world that answers a request and moves on. *)
Class Network {PB : PyBuiltins} := {
  world : Type;
  http_get : request -> world -> http_outcome * world
}.

(** ** The resolver and the tool *)

Section Program.

Context {PB : PyBuiltins} {NW : Network}.

(** The state a call runs in: the world, and the requests made so far. *)
Record state : Type := {
  net : world;
  calls : list request
}.

(** A computation returns or raises, and leaves a state. *)
Definition M (A : Type) : Type := state -> result A * state.

Definition ret {A} (a : A) : M A := fun st => (Ok a, st).

Definition raise {A} (e : exn) : M A := fun st => (Raise e, st).

Definition bind {A B} (m : M A) (f : A -> M B) : M B :=
  fun st =>
    match m st with
    | (Ok a, st') => f a st'
    | (Raise e, st') => (Raise e, st')
    end.

Definition lift {A} (r : result A) : M A := fun st => (r, st).

Notation "x <- m ;; k" := (bind m (fun x => k))
  (at level 61, m at next level, right associativity).
Notation "x <~ m ;; k" := (rbind m (fun x => k))
  (at level 61, m at next level, right associativity).

(** [await client.get(url, params=..., headers=...)] *)
Definition client_get (req : request) : M (Z * option pyval) :=
  fun st =>
    let (o, w) := http_get req (net st) in
    let st' := {| net := w; calls := calls st ++ [req] |} in
    match o with
    | NoResponse => (Raise TransportError, st')
    | Response status body => (Ok (status, body), st')
    end.

(** [r.raise_for_status()]: httpx raises unless the status is 2xx. *)
Definition raise_for_status (r : Z * option pyval) : result unit :=
  if ((200 <=? fst r) && (fst r <=? 299))%Z then Ok tt
  else Raise (HTTPStatusError (fst r)).

(** [r.json()] *)
Definition json (r : Z * option pyval) : result pyval :=
  match snd r with
  | Some v => Ok v
  | None => Raise JSONDecodeError
  end.

Definition geocoding_request (q lang : pystr) : request :=
  {| url := py "https://geocoding-api.open-meteo.com/v1/search";
     params := [(py "name", VStr q); (py "count", VInt 1);
                (py "language", VStr lang); (py "format", VStr (py "json"))];
     headers := [(py "Accept-Language", lang)] |}.

(** The candidate list of [_geocode]: the cleaned text, the part before
    the first comma when there is one, and the text without punctuation. *)
Definition candidates (cleaned : pystr) : list pystr :=
  [cleaned]
  ++ (if contains "," cleaned then [strip (split_first "," cleaned)] else [])
  ++ [strip (re_sub re_punct (py " ") cleaned)].

(** [[c for c in candidates if c and c not in tried]] *)
Definition untried (cands tried : list pystr) : list pystr :=
  filter (fun c => py_bool (VStr c) && negb (str_in c tried)) cands.

(** The queries the loop of [_geocode] runs over. The comprehension is
    evaluated once, before the first iteration, when [tried] is still
    empty. *)
Definition queries (cleaned : pystr) : list pystr :=
  let tried : list pystr := [] in
  untried (candidates cleaned) tried.

(** The message of the final [ValueError]. *)
Definition not_found_message (place : pystr) (tried : list pystr) : pystr :=
  py "No location found for " ++ repr place ++ py " (tried: "
  ++ join (py ", ") tried ++ py ").".

(** The body of the [for] loop, and the [raise] after it. *)
Fixpoint lookup_loop (place lang : pystr) (qs tried : list pystr) : M pyval :=
  match qs with
  | [] => raise (ValueError (not_found_message place tried))
  | q :: qs' =>
      let tried := tried ++ [q] in
      r <- client_get (geocoding_request q lang) ;;
      _ <- lift (raise_for_status r) ;;
      data <- lift (json r) ;;
      results <- lift (py_get data (py "results") VNone) ;;
      if py_bool results
      then lift (rs <~ getitem_key data (py "results") ;; getitem_idx rs 0)
      else lookup_loop place lang qs' tried
  end.

(** [_geocode(place, lang)] *)
Definition _geocode (place lang : pystr) : M pyval :=
  let cleaned := _clean_place (Some place) in
  match _parse_latlon cleaned with
  | Some (lat, lon) =>
      ret (VDict [(py "name", VStr place);
                  (py "country", VNone);
                  (py "admin1", VNone);
                  (py "latitude", VFloat lat);
                  (py "longitude", VFloat lon)])
  | None => lookup_loop place lang (queries cleaned) []
  end.

(** [Literal["C", "F"]] *)
Inductive units : Type := UnitC | UnitF.

Definition forecast_request (lat lon : pyval) (days : Z) (u : units) : request :=
  let temp_unit := match u with UnitC => py "celsius" | UnitF => py "fahrenheit" end in
  {| url := py "https://api.open-meteo.com/v1/forecast";
     params := [(py "latitude", lat);
                (py "longitude", lon);
                (py "daily", VStr (py "weathercode,temperature_2m_max,temperature_2m_min,precipitation_sum"));
                (py "timezone", VStr (py "auto"));
                (py "temperature_unit", VStr temp_unit);
                (py "forecast_days", VInt days)];
     headers := [] |}.

(** [data["daily"][name][i]] *)
Definition daily_at (data : pyval) (name : pystr) (i : nat) : result pyval :=
  d <~ getitem_key data (py "daily") ;;
  a <~ getitem_key d name ;;
  getitem_idx a i.

(** The record appended for index [i]. *)
Definition daily_entry (data times : pyval) (i : nat) : result pyval :=
  date <~ getitem_idx times i ;;
  t_max <~ daily_at data (py "temperature_2m_max") i ;;
  t_min <~ daily_at data (py "temperature_2m_min") i ;;
  precipitation_sum <~ daily_at data (py "precipitation_sum") i ;;
  weathercode <~ daily_at data (py "weathercode") i ;;
  Ok (VDict [(py "date", date);
             (py "t_max", t_max);
             (py "t_min", t_min);
             (py "precipitation_sum", precipitation_sum);
             (py "weathercode", weathercode)]).

(** [for i in range(len(times)): daily.append({...})] *)
Fixpoint daily_loop (data times : pyval) (range : list nat) (daily : list pyval)
  : result (list pyval) :=
  match range with
  | [] => Ok daily
  | i :: range' =>
      e <~ daily_entry data times i ;;
      daily_loop data times range' (daily ++ [e])
  end.

(** The reshaping of the provider's answer into [daily]. *)
Definition reshape_daily (data : pyval) : result (list pyval) :=
  d <~ getitem_key data (py "daily") ;;
  times <~ getitem_key d (py "time") ;;
  n <~ py_len times ;;
  daily_loop data times (seq 0 n) [].

(** The body of [get_weather_forecast]. *)
Definition get_weather_forecast (place : pystr) (days : Z) (u : units) (lang : pystr)
  : M pyval :=
  let place := _clean_place (Some place) in
  loc <- _geocode place lang ;;
  lat <- lift (getitem_key loc (py "latitude")) ;;
  lon <- lift (getitem_key loc (py "longitude")) ;;
  r <- client_get (forecast_request lat lon days u) ;;
  _ <- lift (raise_for_status r) ;;
  data <- lift (json r) ;;
  daily <- lift (reshape_daily data) ;;
  name <- lift (py_get loc (py "name") VNone) ;;
  country <- lift (py_get loc (py "country") VNone) ;;
  admin1 <- lift (py_get loc (py "admin1") VNone) ;;
  timezone <- lift (py_get data (py "timezone") VNone) ;;
  daily_units <- lift (py_get data (py "daily_units") (VDict [])) ;;
  ret (VDict [(py "query", VStr place);
              (py "location", VDict [(py "name", name);
                                     (py "country", country);
                                     (py "admin1", admin1);
                                     (py "latitude", lat);
                                     (py "longitude", lon);
                                     (py "timezone", timezone)]);
              (py "units", daily_units);
              (py "daily", VList daily)]).

(** The constraints declared on the parameters: [Field(ge=1, le=16)] on
    [days], [Field(min_length=2, max_length=5)] on [lang]. *)
Definition valid_arguments (days : Z) (lang : pystr) : bool :=
  ((1 <=? days)%Z && (days <=? 16)%Z)
  && ((2 <=? List.length lang) && (List.length lang <=? 5)).

(** A call of the registered tool: the server checks the arguments
    against the declared constraints and only then runs the body. *)
Definition call_tool (place : pystr) (days : Z) (u : units) (lang : pystr) : M pyval :=
  if valid_arguments days lang
  then get_weather_forecast place days u lang
  else raise ValidationError.

(** ** Vocabulary of the statements *)

(** An answer without a result: a 2xx status and a JSON object whose
    [results] is missing, or false for Python (an empty list). *)
Definition no_results (o : http_outcome) : bool :=
  match o with
  | Response status (Some (VDict d)) =>
      ((200 <=? status) && (status <=? 299))%Z
      && negb (py_bool (match lookup (py "results") d with
                        | Some x => x
                        | None => VNone
                        end))
  | _ => false
  end.

(** From world [w] on, the lookups of [qs], one after the other, all come
    back without a result. *)
Fixpoint all_empty (lang : pystr) (qs : list pystr) (w : world) : bool :=
  match qs with
  | [] => true
  | q :: qs' =>
      let (o, w') := http_get (geocoding_request q lang) w in
      no_results o && all_empty lang qs' w'
  end.

(** The world after these lookups. *)
Fixpoint world_after (lang : pystr) (qs : list pystr) (w : world) : world :=
  match qs with
  | [] => w
  | q :: qs' => world_after lang qs' (snd (http_get (geocoding_request q lang) w))
  end.

(** The daily record made of index [i] of each array. *)
Definition entry_at (times t_max t_min prec code : list pyval) (i : nat) : pyval :=
  VDict [(py "date", nth i times VNone);
         (py "t_max", nth i t_max VNone);
         (py "t_min", nth i t_min VNone);
         (py "precipitation_sum", nth i prec VNone);
         (py "weathercode", nth i code VNone)].

(** The length of the shortest of the four value arrays. *)
Definition shortest_array (t_max t_min prec code : list pyval) : nat :=
  Nat.min (Nat.min (List.length t_max) (List.length t_min))
          (Nat.min (List.length prec) (List.length code)).

End Program.

(** ** A test double

    Builtins that know ASCII only, read a float as the text it is written
    with and quote a string with apostrophes; a network that plays back a
    script of answers and then stops answering. *)

Definition ascii_builtins : PyBuiltins :=
  {| uni_space := fun _ => false;
     uni_word := fun _ => false;
     uni_digit := fun _ => false;
     pyfloat := pystr;
     float := fun s => s;
     float_bool := fun _ => true;
     repr := fun s => py "'" ++ s ++ py "'" |}.

Definition scripted : @Network ascii_builtins :=
  {| world := list (@http_outcome ascii_builtins);
     http_get := fun _ w =>
       match w with
       | o :: w' => (o, w')
       | [] => (NoResponse, [])
       end |}.

Definition start (script : list (@http_outcome ascii_builtins))
  : @state ascii_builtins scripted :=
  @Build_state ascii_builtins scripted script [].

(** The query text of each request of a log. *)
Definition names_of {PB : PyBuiltins} (log : list request) : list (option pyval) :=
  map (fun r => lookup (py "name") (params r)) log.

(** Answers of the two services used in the examples. *)

Definition nothing_found : @http_outcome ascii_builtins :=
  Response 200 (Some (VDict [(py "generationtime_ms", VInt 1)])).

Definition paris_found : @http_outcome ascii_builtins :=
  Response 200
    (Some (VDict [(py "results",
                   VList [VDict [(py "name", VStr (py "Paris"));
                                 (py "country", VStr (py "France"));
                                 (py "latitude", VInt 48);
                                 (py "longitude", VInt 2)]])])).

(** One date, two values in every other array. *)
Definition uneven_daily : @pyval ascii_builtins :=
  VDict [(py "daily",
          VDict [(py "time", VList [VStr (py "2024-05-01")]);
                 (py "temperature_2m_max", VList [VInt 5; VInt 6]);
                 (py "temperature_2m_min", VList [VInt 1; VInt 2]);
                 (py "precipitation_sum", VList [VInt 0; VInt 3]);
                 (py "weathercode", VList [VInt 3; VInt 61])])].

(** Two dates, one maximum temperature. *)
Definition short_daily : @pyval ascii_builtins :=
  VDict [(py "daily",
          VDict [(py "time", VList [VStr (py "2024-05-01"); VStr (py "2024-05-02")]);
                 (py "temperature_2m_max", VList [VInt 5]);
                 (py "temperature_2m_min", VList [VInt 1; VInt 2]);
                 (py "precipitation_sum", VList [VInt 0; VInt 3]);
                 (py "weathercode", VList [VInt 3; VInt 61])])].

(** Two dates and two values in every array. *)
Definition two_days : @http_outcome ascii_builtins :=
  Response 200
    (Some (VDict [(py "timezone", VStr (py "Europe/Paris"));
                  (py "daily_units", VDict [(py "precipitation_sum", VStr (py "mm"))]);
                  (py "daily",
                   VDict [(py "time", VList [VStr (py "2024-05-01"); VStr (py "2024-05-02")]);
                          (py "temperature_2m_max", VList [VInt 5; VInt 6]);
                          (py "temperature_2m_min", VList [VInt 1; VInt 2]);
                          (py "precipitation_sum", VList [VInt 0; VInt 3]);
                          (py "weathercode", VList [VInt 3; VInt 61])])])).

(** ** Further vocabulary *)

Section TextVocabulary.

Context {PB : PyBuiltins}.

(** The characters of a text that are not whitespace, in order. *)
Definition non_space (s : pystr) : pystr :=
  filter (fun c => negb (is_space c)) s.

(** The characters a pattern can read. *)
Fixpoint reads (r : regex) (c : char) : bool :=
  match r with
  | RSet p => p c
  | RSeq r1 r2 => reads r1 c || reads r2 c
  | ROpt r1 => reads r1 c
  | RStar p => p c
  | RGroup _ r1 => reads r1 c
  | RBol => false
  | REol => false
  end.

Definition sign_char (c : char) : bool := is_char "+" c || is_char "-" c.

(** The characters a coordinate pair is written with: whitespace,
    digits, signs, the decimal point and the comma. *)
Definition coord_char (c : char) : bool :=
  is_space c || is_digit c || sign_char c || is_char "." c || is_char "," c.

(** A number without sign: digits, then possibly a point and digits. *)
Definition is_unsigned (n : pystr) : bool :=
  match take_while is_digit n, drop_while is_digit n with
  | _ :: _, [] => true
  | _ :: _, c :: f :: frac => is_char "." c && forallb is_digit (f :: frac)
  | _, _ => false
  end.

(** A number as the parser reads it: a sign or none, then the above. *)
Definition is_number (n : pystr) : bool :=
  match n with
  | c :: n' => if sign_char c then is_unsigned n' else is_unsigned n
  | [] => false
  end.

(** A digit or the point: what would make a number go on. *)
Definition after_number (c : char) : bool := is_digit c || is_char "." c.

(** [\d+(?:\.\d+)?], the part of [re_number] after the sign. *)
Definition re_unsigned : regex :=
  RSeq (RPlus is_digit) (ROpt (RSeq (RSet (is_char ".")) (RPlus is_digit))).

(** [[, ]\s*(number)\s*$], the part of the coordinate pattern from the
    separator on. *)
Definition re_latlon_tail : regex :=
  RSeq (RSet (fun c => is_char "," c || is_char " " c))
    (RSeq (RStar is_space)
       (RSeq (RGroup 2 re_number) (RSeq (RStar is_space) REol))).

(** The pattern of the coordinate parser up to its final [$]. *)
Definition re_latlon_body : regex :=
  RSeq RBol
    (RSeq (RStar is_space)
       (RSeq (RGroup 1 re_number)
          (RSeq (RStar is_space)
             (RSeq (RSet (fun c => is_char "," c || is_char " " c))
                (RSeq (RStar is_space)
                   (RSeq (RGroup 2 re_number) (RStar is_space))))))).

End TextVocabulary.

(** More answers for the examples: a server that is down, a location
    without longitude, a forecast without dates and one without minimum
    temperatures. *)

Definition unavailable : @http_outcome ascii_builtins := Response 503 None.

Definition no_longitude : @http_outcome ascii_builtins :=
  Response 200
    (Some (VDict [(py "results",
                   VList [VDict [(py "name", VStr (py "Paris"));
                                 (py "latitude", VInt 48)]])])).

Definition no_dates : @pyval ascii_builtins :=
  VDict [(py "daily", VDict [(py "time", VList [])])].

Definition no_minimum : @pyval ascii_builtins :=
  VDict [(py "daily",
          VDict [(py "time", VList [VStr (py "2024-05-01")]);
                 (py "temperature_2m_max", VList [VInt 5])])].

Section ProgramVocabulary.

Context {PB : PyBuiltins}.

(** What [client.get], [raise_for_status] and [json], one after the
    other, raise on an answer, if they raise. *)
Definition failure_of (o : http_outcome) : option exn :=
  match o with
  | NoResponse => Some TransportError
  | Response status body =>
      if ((200 <=? status) && (status <=? 299))%Z
      then match body with
           | Some _ => None
           | None => Some JSONDecodeError
           end
      else Some (HTTPStatusError status)
  end.

(** [d.get(k, default)] on the items of a dictionary. *)
Definition dict_get (d : list (pystr * pyval)) (k : pystr) (default : pyval) : pyval :=
  match lookup k d with
  | Some x => x
  | None => default
  end.

(** [loc["latitude"], loc["longitude"]] on the outcome of the resolver. *)
Definition coordinates_of (r : result pyval) : result (pyval * pyval) :=
  rbind r (fun loc =>
  rbind (getitem_key loc (py "latitude")) (fun lat =>
  rbind (getitem_key loc (py "longitude")) (fun lon =>
  Ok (lat, lon)))).

(** The names of the four value arrays, in the order the loop reads
    them. *)
Definition value_keys : list pystr :=
  [py "temperature_2m_max"; py "temperature_2m_min";
   py "precipitation_sum"; py "weathercode"].

End ProgramVocabulary.

(** ** The demo client

    [ask_forecast] of [main_cli_test.py] hands the address of the tool
    server to the chat API. *)

(** [f"{MCP_SERVER_URL.rstrip('/')}{MCP_PATH}/"] *)
Definition server_url (MCP_SERVER_URL MCP_PATH : pystr) : pystr :=
  rstrip (is_char "/") MCP_SERVER_URL ++ MCP_PATH ++ py "/".

(** * Properties *)

(** ** The matcher on the patterns of the normaliser *)

Section TextFacts.

Context {PB : PyBuiltins}.

Lemma space_is_space : is_space (ch " ") = true.
Proof. reflexivity. Qed.

Lemma newline_is_space : is_space 10%N = true.
Proof. reflexivity. Qed.

Lemma space_in_comma_or_space c : is_space c = true -> comma_or_space c = true.
Proof. unfold comma_or_space. intros ->. apply orb_true_r. Qed.

Lemma drop_while_length p s : List.length (drop_while p s) <= List.length s.
Proof.
  induction s as [|c s IH]; simpl; [lia|].
  destruct (p c); simpl; lia.
Qed.

Lemma drop_while_app p l m :
  drop_while p (l ++ m) =
  if forallb p l then drop_while p m else drop_while p l ++ m.
Proof.
  induction l as [|c l IH]; simpl; [reflexivity|].
  destruct (p c); simpl; [exact IH|reflexivity].
Qed.

Lemma drop_while_clean p s : starts_clean p s = true -> drop_while p s = s.
Proof.
  destruct s as [|c s]; simpl; [reflexivity|].
  destruct (p c); [discriminate|reflexivity].
Qed.

Lemma starts_clean_drop_while p s : starts_clean p (drop_while p s) = true.
Proof.
  induction s as [|c s IH]; simpl; [reflexivity|].
  destruct (p c) eqn:E; [exact IH|simpl; now rewrite E].
Qed.

(** [p*] followed by nothing else takes the whole run. *)
Lemma star_longest p i s g :
  star p i s g (fun j t _ => Some (j, t)) =
  Some (i + List.length (take_while p s), drop_while p s).
Proof.
  revert i; induction s as [|c s IH]; intros i; simpl.
  - now rewrite Nat.add_0_r.
  - destruct (p c); simpl.
    + rewrite IH. f_equal. f_equal. lia.
    + now rewrite Nat.add_0_r.
Qed.

(** [p*$], for a set [p] that holds the newline, needs the rest of the
    text to be in [p]. *)
Lemma star_eol p i s g :
  p 10%N = true ->
  star p i s g (fun j t _ => if at_eol t then Some (j, t) else None) =
  if forallb p s then Some (i + List.length s, []) else None.
Proof.
  intros Hnl. revert i; induction s as [|c s IH]; intros i; simpl.
  - now rewrite Nat.add_0_r.
  - destruct (p c) eqn:Ec; simpl.
    + rewrite IH. destruct (forallb p s) eqn:Es.
      * f_equal. f_equal. lia.
      * destruct s; [discriminate|reflexivity].
    + destruct s; [|reflexivity].
      destruct (c =? 10)%N eqn:E; [|reflexivity].
      apply N.eqb_eq in E. subst c. congruence.
Qed.

Lemma match_spaces i s :
  match_here re_spaces i s =
  match s with
  | c :: s' =>
      if is_space c
      then Some (S i + List.length (take_while is_space s'), drop_while is_space s')
      else None
  | [] => None
  end.
Proof.
  unfold match_here, re_spaces, RPlus. simpl.
  destruct s as [|c s]; [reflexivity|].
  destruct (is_space c); [|reflexivity].
  apply star_longest.
Qed.

Lemma match_trailing i s :
  match_here re_trailing i s =
  match s with
  | c :: s' =>
      if forallb comma_or_space s then Some (S i + List.length s', []) else None
  | [] => None
  end.
Proof.
  unfold match_here, re_trailing, RPlus. simpl.
  destruct s as [|c s]; [reflexivity|].
  cbn [forallb]. destruct (comma_or_space c); [|reflexivity].
  cbn [andb]. apply star_eol. apply space_in_comma_or_space, newline_is_space.
Qed.

Lemma squeeze_in_run s :
  squeeze true s = squeeze false (drop_while is_space s).
Proof.
  induction s as [|c s IH]; simpl; [reflexivity|].
  destruct (is_space c) eqn:E; [exact IH|].
  simpl. now rewrite E.
Qed.

(** [re.sub(r"\s+", " ", s)] collapses the runs. *)
Lemma sub_spaces_go fuel : forall i s,
  List.length s < fuel ->
  sub_go fuel re_spaces (py " ") i s = collapse_runs s.
Proof.
  unfold collapse_runs.
  induction fuel as [|fuel IH]; intros i s Hlen; [lia|].
  cbn [sub_go]. rewrite match_spaces.
  destruct s as [|c s]; [reflexivity|].
  simpl in Hlen. cbn [squeeze].
  destruct (is_space c).
  - replace (Nat.ltb i _) with true by (symmetry; apply Nat.ltb_lt; lia).
    rewrite IH by (pose proof (drop_while_length is_space s); lia).
    now rewrite squeeze_in_run.
  - now rewrite IH by lia.
Qed.

Lemma sub_spaces s : re_sub re_spaces (py " ") s = collapse_runs s.
Proof. apply sub_spaces_go. lia. Qed.

Lemma sub_go_nil fuel r repl i :
  match_here r i [] = None -> sub_go fuel r repl i [] = [].
Proof. destruct fuel; simpl; [reflexivity|]. now intros ->. Qed.

(** [re.sub(r"[,\s]+$", "", s)] cuts the trailing run. *)
Lemma sub_trailing_go fuel : forall i s,
  List.length s < fuel ->
  sub_go fuel re_trailing [] i s = drop_trailing comma_or_space s.
Proof.
  induction fuel as [|fuel IH]; intros i s Hlen; [lia|].
  cbn [sub_go]. rewrite match_trailing.
  destruct s as [|c s]; [reflexivity|].
  simpl in Hlen. cbn [drop_trailing].
  destruct (forallb comma_or_space (c :: s)).
  - replace (Nat.ltb i _) with true by (symmetry; apply Nat.ltb_lt; lia).
    simpl. apply sub_go_nil. reflexivity.
  - now rewrite IH by lia.
Qed.

Lemma forallb_reverse p (l : pystr) : forallb p (rev l) = forallb p l.
Proof.
  induction l as [|c l IH]; [reflexivity|].
  simpl. rewrite forallb_app, IH. simpl.
  rewrite andb_true_r. apply andb_comm.
Qed.

Lemma drop_while_all p s : forallb p s = true -> drop_while p s = [].
Proof.
  induction s as [|c s IH]; simpl; [reflexivity|].
  destruct (p c); [exact IH|discriminate].
Qed.

Lemma drop_trailing_rstrip p s : drop_trailing p s = rstrip p s.
Proof.
  unfold rstrip. induction s as [|c s IH]; [reflexivity|].
  cbn [drop_trailing rev]. rewrite drop_while_app, forallb_reverse.
  cbn [forallb drop_while].
  destruct (forallb p s) eqn:Es.
  - rewrite andb_true_r. destruct (p c); [reflexivity|].
    rewrite IH, drop_while_all by now rewrite forallb_reverse.
    reflexivity.
  - rewrite andb_false_r, IH, rev_app_distr. reflexivity.
Qed.

Lemma sub_trailing s : re_sub re_trailing [] s = rstrip comma_or_space s.
Proof. rewrite <- drop_trailing_rstrip. apply sub_trailing_go. lia. Qed.

(** [re.sub(r"[^\\w\\s\\-']", " ", s)] blanks the punctuation, one
    character at a time. *)
Lemma sub_punct_go fuel : forall i s,
  List.length s < fuel ->
  sub_go fuel re_punct (py " ") i s = blank_punct s.
Proof.
  induction fuel as [|fuel IH]; intros i s Hlen; [lia|].
  cbn [sub_go]. unfold match_here, re_punct. cbn [rmatch].
  destruct s as [|c s]; [reflexivity|].
  simpl in Hlen. cbn [blank_punct map].
  destruct (is_punct c).
  - replace (Nat.ltb i (S i)) with true by (symmetry; apply Nat.ltb_lt; lia).
    simpl. f_equal. apply IH. lia.
  - f_equal. apply IH. lia.
Qed.

Lemma sub_punct s : re_sub re_punct (py " ") s = blank_punct s.
Proof. apply sub_punct_go. lia. Qed.

(** The source and the description agree. *)
Lemma clean_place_spec s : _clean_place (Some s) = normalize_spec s.
Proof.
  unfold _clean_place, normalize_spec, strip.
  now rewrite sub_spaces, sub_trailing.
Qed.

(** ** The shape of a normalised text *)

Lemma starts_clean_squeeze s : starts_clean is_space (squeeze true s) = true.
Proof.
  induction s as [|c s IH]; simpl; [reflexivity|].
  destruct (is_space c) eqn:E; [exact IH|simpl; now rewrite E].
Qed.

Lemma single_spaced_squeeze b s : single_spaced (squeeze b s) = true.
Proof.
  revert b; induction s as [|c s IH]; intros b; simpl; [reflexivity|].
  destruct (is_space c) eqn:E.
  - destruct b; [apply IH|].
    change (single_spaced (ch " " :: squeeze true s) = true).
    cbn [single_spaced]. rewrite space_is_space, N.eqb_refl.
    now rewrite starts_clean_squeeze, IH.
  - cbn [single_spaced]. now rewrite E, IH.
Qed.

Lemma squeeze_single_spaced s :
  single_spaced s = true -> collapse_runs s = s.
Proof.
  unfold collapse_runs.
  induction s as [|c s IH]; simpl; [reflexivity|].
  intros H. apply andb_prop in H as [Hc Hs].
  destruct (is_space c).
  - apply andb_prop in Hc as [Hc Hh]. apply N.eqb_eq in Hc.
    rewrite squeeze_in_run, (drop_while_clean _ _ Hh), (IH Hs). now subst c.
  - now rewrite IH.
Qed.

Lemma single_spaced_drop_while p s :
  single_spaced s = true -> single_spaced (drop_while p s) = true.
Proof.
  induction s as [|c s IH]; simpl; [reflexivity|].
  intros H. destruct (p c); [|exact H].
  apply andb_prop in H as [_ Hs]. auto.
Qed.

Lemma starts_clean_app p l m :
  starts_clean p (l ++ m) = true -> starts_clean p l = true.
Proof. destruct l; simpl; auto. Qed.

Lemma single_spaced_prefix l m :
  single_spaced (l ++ m) = true -> single_spaced l = true.
Proof.
  induction l as [|c l IH]; simpl; [reflexivity|].
  intros H. apply andb_prop in H as [Hc Hs].
  rewrite (IH Hs), andb_true_r.
  destruct (is_space c); [|reflexivity].
  apply andb_prop in Hc as [-> Hh]. simpl.
  eapply starts_clean_app; eassumption.
Qed.

Lemma drop_while_suffix p s : exists l, s = l ++ drop_while p s.
Proof.
  induction s as [|c s [l IH]]; simpl; [now exists []|].
  destruct (p c); [|now exists []].
  exists (c :: l). simpl. now f_equal.
Qed.

(** What [rstrip] keeps is a prefix. *)
Lemma rstrip_prefix p s : exists m, s = rstrip p s ++ m.
Proof.
  unfold rstrip. destruct (drop_while_suffix p (rev s)) as [l Hl].
  exists (rev l). rewrite <- rev_app_distr, <- Hl. now rewrite rev_involutive.
Qed.

Lemma ends_clean_rstrip p s : ends_clean p (rstrip p s) = true.
Proof.
  unfold ends_clean, rstrip. rewrite rev_involutive.
  apply starts_clean_drop_while.
Qed.

Lemma rstrip_clean p s : ends_clean p s = true -> rstrip p s = s.
Proof.
  unfold ends_clean, rstrip. intros H.
  rewrite drop_while_clean by exact H. apply rev_involutive.
Qed.

Lemma starts_clean_rstrip q p s :
  starts_clean q s = true -> starts_clean q (rstrip p s) = true.
Proof.
  intros H. destruct (rstrip_prefix p s) as [m Hm].
  rewrite Hm in H. eapply starts_clean_app; eassumption.
Qed.

Lemma single_spaced_rstrip p s :
  single_spaced s = true -> single_spaced (rstrip p s) = true.
Proof.
  intros H. destruct (rstrip_prefix p s) as [m Hm].
  rewrite Hm in H. eapply single_spaced_prefix; eassumption.
Qed.

Lemma ends_clean_space s :
  ends_clean comma_or_space s = true -> ends_clean is_space s = true.
Proof.
  unfold ends_clean, starts_clean. destruct (rev s) as [|c l]; [reflexivity|].
  unfold comma_or_space. destruct (is_space c); [|reflexivity].
  now rewrite orb_true_r.
Qed.

Lemma normalize_spec_normal s : normal_form (normalize_spec s).
Proof.
  unfold normal_form, normalize_spec. repeat split.
  - do 2 apply single_spaced_rstrip. apply single_spaced_drop_while.
    apply single_spaced_squeeze.
  - do 2 apply starts_clean_rstrip. apply starts_clean_drop_while.
  - apply ends_clean_rstrip.
Qed.

Lemma normalize_spec_fixes t : normal_form t -> normalize_spec t = t.
Proof.
  intros (Hs & Hh & He). unfold normalize_spec.
  rewrite (squeeze_single_spaced _ Hs), (drop_while_clean _ _ Hh).
  rewrite (rstrip_clean _ _ (ends_clean_space _ He)).
  apply rstrip_clean, He.
Qed.

(** C8: the normaliser is a total function that returns the same text
    when applied twice as when applied once; its result is the input with
    every run of whitespace collapsed to one space, whitespace stripped at
    both ends and the trailing run of commas and whitespace cut, so it has
    single spaces only, no whitespace in front and no comma or whitespace
    at the end; [None] and the empty string give the empty string. *)
Theorem clean_place_normalises (s : option pystr) :
  let t := _clean_place s in
  _clean_place (Some t) = t
  /\ t = normalize_spec (match s with Some x => x | None => [] end)
  /\ single_spaced t = true
  /\ starts_clean is_space t = true
  /\ ends_clean is_space t = true
  /\ ends_clean comma_or_space t = true
  /\ _clean_place None = []
  /\ _clean_place (Some []) = [].
Proof.
  intros t.
  assert (Ht : t = normalize_spec (match s with Some x => x | None => [] end)).
  { subst t. destruct s; apply clean_place_spec. }
  pose proof (normalize_spec_normal (match s with Some x => x | None => [] end)) as Hn.
  rewrite <- Ht in Hn.
  split; [rewrite clean_place_spec; now apply normalize_spec_fixes|].
  split; [exact Ht|].
  destruct Hn as (Hs & Hh & He).
  repeat split; auto using ends_clean_space.
Qed.

End TextFacts.

(** ** The resolver *)

Section ResolverFacts.

Context {PB : PyBuiltins} {NW : Network}.

Lemma bind_ok {A B} (m : M A) (f : A -> M B) st b st' :
  bind m f st = (Ok b, st') ->
  exists a st1, m st = (Ok a, st1) /\ f a st1 = (Ok b, st').
Proof.
  unfold bind. destruct (m st) as [[a|e] st1]; [|discriminate].
  intros H. now exists a, st1.
Qed.

(** Open one turn of the loop and name the answer [o] and the world [w]
    that the request leaves. *)
Ltac one_turn q lang st :=
  cbn [lookup_loop]; unfold bind at 1, client_get;
  let o := fresh "o" in
  let w := fresh "w" in
  destruct (http_get (geocoding_request q lang) (net st)) as [o w];
  cbn [fst snd] in *.

(** The filter in front of the loop removes the empty candidates and
    nothing else. *)
Lemma queries_nonempty_candidates cleaned :
  queries cleaned = filter (fun c => py_bool (VStr c)) (candidates cleaned).
Proof.
  unfold queries, untried. apply filter_ext. intros c.
  simpl. apply andb_true_r.
Qed.

(** One turn of the loop on an answer without a result: on to the next
    query. *)
Lemma lookup_empty_next place lang q qs tried st :
  no_results (fst (http_get (geocoding_request q lang) (net st))) = true ->
  lookup_loop place lang (q :: qs) tried st =
  lookup_loop place lang qs (tried ++ [q])
    {| net := snd (http_get (geocoding_request q lang) (net st));
       calls := calls st ++ [geocoding_request q lang] |}.
Proof.
  one_turn q lang st.
  destruct o as [|status [[]|]]; try discriminate.
  cbn [no_results]. intros H. apply andb_prop in H as [Hs Hr].
  unfold bind, lift, raise_for_status, json. cbn [fst snd py_get].
  rewrite Hs. apply negb_true_iff in Hr. now rewrite Hr.
Qed.

(** One turn on a result list that is not empty: its first element is
    returned as it is, and the loop ends. *)
Lemma lookup_hit_stops place lang q qs tried st status d x xs :
  fst (http_get (geocoding_request q lang) (net st)) = Response status (Some (VDict d)) ->
  (200 <= status <= 299)%Z ->
  lookup (py "results") d = Some (VList (x :: xs)) ->
  lookup_loop place lang (q :: qs) tried st =
  (Ok x, {| net := snd (http_get (geocoding_request q lang) (net st));
            calls := calls st ++ [geocoding_request q lang] |}).
Proof.
  intros Ho Hs Hr. one_turn q lang st. subst o.
  unfold bind, lift, raise_for_status, json, rbind. cbn [fst snd py_get getitem_key].
  replace ((200 <=? status)%Z && (status <=? 299)%Z) with true
    by (symmetry; apply andb_true_intro; split; apply Z.leb_le; lia).
  now rewrite Hr.
Qed.

(** One turn on a status that is not 2xx: the error ends the resolution. *)
Lemma lookup_status_aborts place lang q qs tried st status body :
  fst (http_get (geocoding_request q lang) (net st)) = Response status body ->
  (status < 200 \/ 299 < status)%Z ->
  lookup_loop place lang (q :: qs) tried st =
  (Raise (HTTPStatusError status),
   {| net := snd (http_get (geocoding_request q lang) (net st));
      calls := calls st ++ [geocoding_request q lang] |}).
Proof.
  intros Ho Hs. one_turn q lang st. subst o.
  unfold bind, lift, raise_for_status. cbn [fst snd].
  replace ((200 <=? status)%Z && (status <=? 299)%Z) with false; [reflexivity|].
  symmetry. apply andb_false_iff.
  destruct Hs; [left; apply Z.leb_gt|right; apply Z.leb_gt]; lia.
Qed.

Lemma lookup_loop_all_empty place lang qs : forall tried st,
  all_empty lang qs (net st) = true ->
  lookup_loop place lang qs tried st =
  (Raise (ValueError (not_found_message place (tried ++ qs))),
   {| net := world_after lang qs (net st);
      calls := calls st ++ map (fun q => geocoding_request q lang) qs |}).
Proof.
  induction qs as [|q qs IH]; intros tried st H.
  - simpl. rewrite !app_nil_r. now destruct st.
  - cbn [all_empty] in H.
    destruct (http_get (geocoding_request q lang) (net st)) as [o w] eqn:E.
    apply andb_prop in H as [Ho Hq].
    rewrite lookup_empty_next by now rewrite E.
    rewrite IH by (cbn [net]; now rewrite E).
    cbn [net calls world_after map]. now rewrite <- !app_assoc.
Qed.

(** C4: when the cleaned input is a coordinate pair, the resolver returns
    at once, in the state it started in (no request is made), a location
    whose latitude and longitude are the parsed pair, whose name is the
    input text and whose country and region are [None]. *)
Theorem geocode_coordinates place lang lat lon st :
  _parse_latlon (_clean_place (Some place)) = Some (lat, lon) ->
  _geocode place lang st =
  (Ok (VDict [(py "name", VStr place);
              (py "country", VNone);
              (py "admin1", VNone);
              (py "latitude", VFloat lat);
              (py "longitude", VFloat lon)]),
   st).
Proof. unfold _geocode. now intros ->. Qed.

(** C6: when the input is not a coordinate pair and every query of the
    candidate list comes back without a result, the resolver raises the
    not-found error, whose message holds the input text (as [repr] prints
    it) and the queries tried, joined in order; the queries tried are
    exactly the candidate list, one request each. *)
Theorem geocode_not_found place lang st :
  _parse_latlon (_clean_place (Some place)) = None ->
  all_empty lang (queries (_clean_place (Some place))) (net st) = true ->
  _geocode place lang st =
  (Raise (ValueError (not_found_message place (queries (_clean_place (Some place))))),
   {| net := world_after lang (queries (_clean_place (Some place))) (net st);
      calls := calls st
               ++ map (fun q => geocoding_request q lang)
                      (queries (_clean_place (Some place))) |}).
Proof.
  intros Hp He. unfold _geocode. rewrite Hp.
  now rewrite lookup_loop_all_empty.
Qed.

(** C10: when the cleaned input is empty, the two candidates are empty
    strings and the filter drops both: the resolver makes no request
    (it ends in the state it started in) and raises the not-found error
    with an empty list of queries. *)
Theorem geocode_empty_input place lang st :
  _clean_place (Some place) = [] ->
  candidates (_clean_place (Some place)) = [[]; []]
  /\ queries (_clean_place (Some place)) = []
  /\ _geocode place lang st = (Raise (ValueError (not_found_message place [])), st).
Proof.
  intros H. unfold _geocode. rewrite H. repeat split; reflexivity.
Qed.

End ResolverFacts.

(** ** The coordinate parser and the candidate list *)

Section ExampleFacts.

Context {PB : PyBuiltins}.

(** C7: the three spellings of the pair parse to the same two numbers,
    latitude first; a place name gives [None], a value and not an error;
    numbers out of range are parsed like any other. *)
Theorem parse_latlon_examples :
  _parse_latlon (py "55.676,12.568") = Some (float (py "55.676"), float (py "12.568"))
  /\ _parse_latlon (py "55.676, 12.568") = Some (float (py "55.676"), float (py "12.568"))
  /\ _parse_latlon (py "55.676 12.568") = Some (float (py "55.676"), float (py "12.568"))
  /\ _parse_latlon (py "Copenhagen, DK") = None
  /\ _parse_latlon (py "999,999") = Some (float (py "999"), float (py "999")).
Proof. repeat split; reflexivity. Qed.

(** C2, as the code has it: for "Paris, FR" the candidates, and the
    queries made of them, are "Paris, FR", "Paris" and "Paris  FR", in
    this order and without a duplicate; the third is the text with the
    comma replaced by a space, next to the space that follows it, and
    then stripped. *)
Theorem candidates_paris_fr :
  candidates (py "Paris, FR") = [py "Paris, FR"; py "Paris"; py "Paris  FR"]
  /\ queries (py "Paris, FR") = [py "Paris, FR"; py "Paris"; py "Paris  FR"]
  /\ NoDup (queries (py "Paris, FR"))
  /\ nth 2 (queries (py "Paris, FR")) [] = strip (blank_punct (py "Paris, FR")).
Proof.
  repeat split; try reflexivity.
  change (queries (py "Paris, FR")) with [py "Paris, FR"; py "Paris"; py "Paris  FR"].
  repeat constructor; simpl; intuition discriminate.
Qed.

End ExampleFacts.

(** ** The tool *)

Section ToolFacts.

Context {PB : PyBuiltins} {NW : Network}.

Section Reshape.

Variables (data d : pyval) (times t_max t_min prec code : list pyval).

Hypothesis Hdaily : getitem_key data (py "daily") = Ok d.
Hypothesis Htime : getitem_key d (py "time") = Ok (VList times).
Hypothesis Hmax : getitem_key d (py "temperature_2m_max") = Ok (VList t_max).
Hypothesis Hmin : getitem_key d (py "temperature_2m_min") = Ok (VList t_min).
Hypothesis Hprec : getitem_key d (py "precipitation_sum") = Ok (VList prec).
Hypothesis Hcode : getitem_key d (py "weathercode") = Ok (VList code).

Lemma getitem_idx_ok (l : list pyval) i :
  i < List.length l -> getitem_idx (VList l) i = Ok (nth i l VNone).
Proof. intros H. simpl. now rewrite (nth_error_nth' l VNone H). Qed.

Lemma getitem_idx_out (l : list pyval) i :
  List.length l <= i -> getitem_idx (VList l) i = Raise IndexError.
Proof. intros H. simpl. apply nth_error_None in H. now rewrite H. Qed.

Lemma daily_at_array name (l : list pyval) i :
  getitem_key d name = Ok (VList l) ->
  daily_at data name i = getitem_idx (VList l) i.
Proof. intros H. unfold daily_at. rewrite Hdaily. cbn [rbind]. now rewrite H. Qed.

Lemma daily_entry_ok i :
  i < List.length times -> i < List.length t_max -> i < List.length t_min ->
  i < List.length prec -> i < List.length code ->
  daily_entry data (VList times) i = Ok (entry_at times t_max t_min prec code i).
Proof.
  intros. unfold daily_entry.
  rewrite (daily_at_array _ _ Hmax), (daily_at_array _ _ Hmin),
    (daily_at_array _ _ Hprec), (daily_at_array _ _ Hcode).
  now rewrite !getitem_idx_ok by assumption.
Qed.

Lemma daily_entry_short i :
  i < List.length times ->
  List.length t_max <= i \/ List.length t_min <= i
  \/ List.length prec <= i \/ List.length code <= i ->
  daily_entry data (VList times) i = Raise IndexError.
Proof.
  intros Ht Hs. unfold daily_entry.
  rewrite (daily_at_array _ _ Hmax), (daily_at_array _ _ Hmin),
    (daily_at_array _ _ Hprec), (daily_at_array _ _ Hcode).
  rewrite (getitem_idx_ok _ Ht). cbn [rbind].
  destruct (le_lt_dec (List.length t_max) i) as [L|L];
    [now rewrite (getitem_idx_out _ L)|rewrite (getitem_idx_ok _ L); cbn [rbind]].
  destruct (le_lt_dec (List.length t_min) i) as [L1|L1];
    [now rewrite (getitem_idx_out _ L1)|rewrite (getitem_idx_ok _ L1); cbn [rbind]].
  destruct (le_lt_dec (List.length prec) i) as [L2|L2];
    [now rewrite (getitem_idx_out _ L2)|rewrite (getitem_idx_ok _ L2); cbn [rbind]].
  destruct (le_lt_dec (List.length code) i) as [L3|L3];
    [now rewrite (getitem_idx_out _ L3)|lia].
Qed.

Lemma daily_loop_ok k : forall start daily,
  start + k <= List.length times ->
  start + k <= shortest_array t_max t_min prec code ->
  daily_loop data (VList times) (seq start k) daily =
  Ok (daily ++ map (entry_at times t_max t_min prec code) (seq start k)).
Proof.
  unfold shortest_array.
  induction k as [|k IH]; intros start daily Ht Hm; simpl.
  - now rewrite app_nil_r.
  - rewrite daily_entry_ok by lia. cbn [rbind].
    rewrite IH by lia. now rewrite <- app_assoc.
Qed.

Lemma daily_loop_short k : forall start rest daily,
  start + k = shortest_array t_max t_min prec code ->
  start + k < List.length times ->
  daily_loop data (VList times) (seq start (k + S rest)) daily = Raise IndexError.
Proof.
  unfold shortest_array.
  induction k as [|k IH]; intros start rest daily Hm Ht; simpl.
  - rewrite daily_entry_short by lia. reflexivity.
  - rewrite daily_entry_ok by lia. cbn [rbind]. apply IH; lia.
Qed.

Lemma reshape_daily_loop :
  reshape_daily data =
  daily_loop data (VList times) (seq 0 (List.length times)) [].
Proof. unfold reshape_daily. rewrite Hdaily. cbn [rbind]. now rewrite Htime. Qed.

(** C3, as the code has it: the loop runs over the dates. When every
    other array is at least as long as the dates (all of one length n in
    particular), [daily] has one record per date, made of index i of each
    array; values beyond the last date are left out. When some array is
    shorter than the dates, the reshaping raises [IndexError]. *)
Theorem reshape_daily_by_dates :
  (List.length times <= shortest_array t_max t_min prec code ->
   reshape_daily data =
   Ok (map (entry_at times t_max t_min prec code) (seq 0 (List.length times))))
  /\ (shortest_array t_max t_min prec code < List.length times ->
      reshape_daily data = Raise IndexError).
Proof.
  rewrite reshape_daily_loop. split; intros H.
  - now rewrite daily_loop_ok by lia.
  - replace (List.length times)
      with (shortest_array t_max t_min prec code
            + S (List.length times - S (shortest_array t_max t_min prec code)))
      at 1 by lia.
    apply daily_loop_short; [reflexivity|exact H].
Qed.

End Reshape.

(** C1, as the code has it: the [query] of a returned forecast is the
    cleaned place text, which is what the function works with from its
    first line on. *)
Theorem forecast_query_is_cleaned place days u lang st res :
  fst (get_weather_forecast place days u lang st) = Ok res ->
  getitem_key res (py "query") = Ok (VStr (_clean_place (Some place))).
Proof.
  destruct (get_weather_forecast place days u lang st) as [r st'] eqn:E.
  cbn [fst]. intros ->. unfold get_weather_forecast in E.
  repeat (apply bind_ok in E as (? & ? & _ & E)).
  unfold ret in E. injection E as <- _. reflexivity.
Qed.

(** C9: a call whose [days] is outside 1..16 or whose [lang] has fewer
    than 2 or more than 5 characters is rejected with a validation error
    in the state it started in: no request is made, nothing else done. *)
Theorem invalid_arguments_rejected place days u lang st :
  (days < 1 \/ 16 < days)%Z \/ List.length lang < 2 \/ 5 < List.length lang ->
  call_tool place days u lang st = (Raise ValidationError, st).
Proof.
  intros H. unfold call_tool.
  replace (valid_arguments days lang) with false; [reflexivity|].
  symmetry. unfold valid_arguments.
  destruct H as [[H|H]|[H|H]].
  - apply Z.leb_gt in H. now rewrite H.
  - apply Z.leb_gt in H. rewrite H. now rewrite andb_false_r.
  - apply Nat.leb_gt in H. rewrite H. now rewrite andb_false_r.
  - apply Nat.leb_gt in H. rewrite H. now rewrite !andb_false_r.
Qed.

End ToolFacts.

(** ** The theorems at work, and where the code departs *)

(** The coordinate pair of the description goes through without a
    request. *)
Lemma geocode_coordinates_witness :
  @_geocode ascii_builtins scripted (py "55.676,12.568") (py "en") (start [paris_found]) =
  (Ok (VDict [(py "name", VStr (py "55.676,12.568"));
              (py "country", VNone);
              (py "admin1", VNone);
              (py "latitude", VFloat (py "55.676" : @pyfloat ascii_builtins));
              (py "longitude", VFloat (py "12.568" : @pyfloat ascii_builtins))]),
   start [paris_found]).
Proof.
  apply (@geocode_coordinates ascii_builtins scripted). reflexivity.
Defined.

(** A name nobody knows: both queries come back empty. *)
Lemma geocode_not_found_witness :
  fst (@_geocode ascii_builtins scripted (py "Qwzxylopolis") (py "en")
         (start [nothing_found; nothing_found])) =
  Raise (ValueError
           (py "No location found for 'Qwzxylopolis' (tried: Qwzxylopolis, Qwzxylopolis).")).
Proof.
  exact (f_equal fst
           (@geocode_not_found ascii_builtins scripted (py "Qwzxylopolis") (py "en")
              (start [nothing_found; nothing_found]) eq_refl eq_refl)).
Defined.

(** Commas and spaces only. *)
Lemma geocode_empty_input_witness :
  @candidates ascii_builtins (@_clean_place ascii_builtins (Some (py " , ,"))) = [[]; []]
  /\ @queries ascii_builtins (@_clean_place ascii_builtins (Some (py " , ,"))) = []
  /\ @_geocode ascii_builtins scripted (py " , ,") (py "en") (start [paris_found]) =
     (Raise (ValueError (py "No location found for ' , ,' (tried: ).")),
      start [paris_found]).
Proof.
  apply (@geocode_empty_input ascii_builtins scripted). reflexivity.
Defined.

(** The three rejected calls of the description. *)
Lemma invalid_arguments_witness :
  @call_tool ascii_builtins scripted (py "Paris") 0 UnitC (py "en") (start [paris_found; two_days])
  = (Raise ValidationError, start [paris_found; two_days])
  /\ @call_tool ascii_builtins scripted (py "Paris") 17 UnitC (py "en") (start [paris_found; two_days])
     = (Raise ValidationError, start [paris_found; two_days])
  /\ @call_tool ascii_builtins scripted (py "Paris") 3 UnitC (py "e") (start [paris_found; two_days])
     = (Raise ValidationError, start [paris_found; two_days]).
Proof.
  split; [|split]; apply (@invalid_arguments_rejected ascii_builtins scripted).
  - left; left; reflexivity.
  - left; right; reflexivity.
  - right; left; simpl; lia.
Defined.

(** C1 as stated fails: a place with blanks around it comes back without
    them in [query]. *)
Lemma forecast_query_not_original :
  exists res,
    fst (@get_weather_forecast ascii_builtins scripted (py " Paris ") 3 UnitC (py "en")
           (start [paris_found; two_days])) = Ok res
    /\ getitem_key res (py "query") <> Ok (VStr (py " Paris ")).
Proof.
  eexists. split; [vm_compute; reflexivity|].
  vm_compute. discriminate.
Defined.

(** The same call: its [query] is the cleaned text. *)
Lemma forecast_query_witness :
  exists res,
    fst (@get_weather_forecast ascii_builtins scripted (py " Paris ") 3 UnitC (py "en")
           (start [paris_found; two_days])) = Ok res
    /\ getitem_key res (py "query") = Ok (VStr (py "Paris")).
Proof.
  eexists. split; [vm_compute; reflexivity|].
  apply (@forecast_query_is_cleaned ascii_builtins scripted (py " Paris ") 3 UnitC (py "en")
           (start [paris_found; two_days])).
  vm_compute. reflexivity.
Defined.

(** C2 as stated fails: the third candidate has two spaces. *)
Lemma candidates_paris_fr_not_single_space :
  @queries ascii_builtins (py "Paris, FR") <> [py "Paris, FR"; py "Paris"; py "Paris FR"].
Proof. vm_compute. discriminate. Qed.

(** C3 as stated fails: with one date and two values in every other
    array the reshaping does not raise; it returns the one record and
    leaves the second values out. *)
Lemma reshape_truncates :
  reshape_daily uneven_daily =
  Ok [VDict [(py "date", VStr (py "2024-05-01"));
             (py "t_max", VInt 5);
             (py "t_min", VInt 1);
             (py "precipitation_sum", VInt 0);
             (py "weathercode", VInt 3)]]
  /\ reshape_daily uneven_daily <> Raise IndexError.
Proof. split; [reflexivity|vm_compute; discriminate]. Qed.

(** Both sides of the reshaping: longer value arrays are cut to the
    dates, a shorter one raises. *)
Lemma reshape_daily_witness :
  reshape_daily uneven_daily =
    Ok [entry_at [VStr (py "2024-05-01")] [VInt 5; VInt 6] [VInt 1; VInt 2]
          [VInt 0; VInt 3] [VInt 3; VInt 61] 0]
  /\ reshape_daily short_daily = Raise IndexError.
Proof.
  split.
  - apply (@reshape_daily_by_dates ascii_builtins uneven_daily _
             [VStr (py "2024-05-01")] [VInt 5; VInt 6] [VInt 1; VInt 2]
             [VInt 0; VInt 3] [VInt 3; VInt 61]
             eq_refl eq_refl eq_refl eq_refl eq_refl eq_refl).
    vm_compute. lia.
  - apply (@reshape_daily_by_dates ascii_builtins short_daily _
             [VStr (py "2024-05-01"); VStr (py "2024-05-02")] [VInt 5] [VInt 1; VInt 2]
             [VInt 0; VInt 3] [VInt 3; VInt 61]
             eq_refl eq_refl eq_refl eq_refl eq_refl eq_refl).
    vm_compute. lia.
Defined.

(** C5, where the code departs from it: for a text without comma or
    punctuation the candidate list holds the text twice, the filter does
    not remove the second (it runs before anything was tried), and when
    the first lookup finds nothing the same query is sent again. *)
Theorem geocode_repeats_query :
  @queries ascii_builtins (py "Paris") = [py "Paris"; py "Paris"]
  /\ names_of (calls (snd (@_geocode ascii_builtins scripted (py "Paris") (py "en")
                            (start [nothing_found; nothing_found; paris_found]))))
     = [Some (VStr (py "Paris")); Some (VStr (py "Paris"))]
  /\ fst (@_geocode ascii_builtins scripted (py "Paris") (py "en")
            (start [nothing_found; nothing_found; paris_found]))
     = Raise (ValueError (py "No location found for 'Paris' (tried: Paris, Paris).")).
Proof. repeat split; reflexivity. Qed.

(** * Further properties *)

(** ** The normaliser *)

Section CleanFacts.

Context {PB : PyBuiltins}.

Lemma drop_while_split p s :
  exists l, s = l ++ drop_while p s /\ forallb p l = true.
Proof.
  induction s as [|c s (l & IH & Hl)]; simpl; [now exists []|].
  destruct (p c) eqn:E; [|now exists []].
  exists (c :: l). simpl. rewrite E, Hl. split; [now f_equal|reflexivity].
Qed.

(** What [rstrip] cuts is made of characters of [p]. *)
Lemma rstrip_split p s :
  exists m, s = rstrip p s ++ m /\ forallb p m = true.
Proof.
  unfold rstrip. destruct (drop_while_split p (rev s)) as (l & Hl & Hp).
  exists (rev l). split.
  - rewrite <- rev_app_distr, <- Hl. now rewrite rev_involutive.
  - now rewrite forallb_reverse.
Qed.

Lemma rstrip_nil p s : rstrip p s = [] <-> forallb p s = true.
Proof.
  rewrite <- drop_trailing_rstrip.
  destruct s as [|c s]; [simpl; tauto|].
  cbn [drop_trailing]. destruct (forallb p (c :: s)); split; congruence.
Qed.

Lemma clean_place_idempotent s :
  _clean_place (Some (_clean_place s)) = _clean_place s.
Proof.
  rewrite clean_place_spec. apply normalize_spec_fixes.
  destruct s; [rewrite clean_place_spec|change (_clean_place None) with (_clean_place (Some []));
                                        rewrite clean_place_spec];
    apply normalize_spec_normal.
Qed.

Lemma forallb_squeeze b s :
  forallb comma_or_space (squeeze b s) = forallb comma_or_space s.
Proof.
  revert b; induction s as [|c s IH]; intros b; simpl; [reflexivity|].
  destruct (is_space c) eqn:E.
  - rewrite (space_in_comma_or_space _ E). destruct b; simpl; apply IH.
  - simpl. now rewrite IH.
Qed.

Lemma forallb_cut (p q : char -> bool) (l m : pystr) :
  (forall c, p c = true -> q c = true) ->
  forallb p m = true -> forallb q (l ++ m) = forallb q l.
Proof.
  intros Hpq Hm. rewrite forallb_app.
  replace (forallb q m) with true; [apply andb_true_r|].
  symmetry. rewrite forallb_forall in *. auto.
Qed.

Lemma forallb_lead (p q : char -> bool) (l m : pystr) :
  (forall c, p c = true -> q c = true) ->
  forallb p l = true -> forallb q (l ++ m) = forallb q m.
Proof.
  intros Hpq Hl. rewrite forallb_app.
  replace (forallb q l) with true; [reflexivity|].
  symmetry. rewrite forallb_forall in *. auto.
Qed.

(** X1: the texts the normaliser leaves as they are are exactly the
    texts in normal form: single spaces only, no whitespace in front, no
    comma or whitespace at the end. *)
Theorem clean_place_fixed_points (s : pystr) :
  _clean_place (Some s) = s <-> normal_form s.
Proof.
  rewrite clean_place_spec. split.
  - intros H. rewrite <- H. apply normalize_spec_normal.
  - apply normalize_spec_fixes.
Qed.

(** X2: the normaliser returns the empty text exactly for the inputs made
    of commas and whitespace only (the empty input among them). *)
Theorem clean_place_empty_iff (s : pystr) :
  _clean_place (Some s) = [] <-> forallb comma_or_space s = true.
Proof.
  rewrite clean_place_spec. unfold normalize_spec.
  rewrite rstrip_nil.
  destruct (rstrip_split is_space (drop_while is_space (collapse_runs s)))
    as (m & Hm & Hpm).
  destruct (drop_while_split is_space (collapse_runs s)) as (l & Hl & Hpl).
  rewrite <- (forallb_squeeze false s). fold (collapse_runs s).
  set (a := collapse_runs s) in *. set (b := drop_while is_space a) in *.
  rewrite Hl, (@forallb_lead is_space comma_or_space l b space_in_comma_or_space Hpl).
  rewrite Hm at 2.
  now rewrite (@forallb_cut is_space comma_or_space (rstrip is_space b) m
                 space_in_comma_or_space Hpm).
Qed.

Lemma non_space_squeeze b s : non_space (squeeze b s) = non_space s.
Proof.
  unfold non_space.
  revert b; induction s as [|c s IH]; intros b; simpl; [reflexivity|].
  destruct (is_space c) eqn:E; simpl.
  - destruct b; [apply IH|]. simpl. apply IH.
  - rewrite E. simpl. now rewrite IH.
Qed.

Lemma non_space_spaces l : forallb is_space l = true -> non_space l = [].
Proof.
  unfold non_space. induction l as [|c l IH]; simpl; [reflexivity|].
  intros H. apply andb_prop in H as [-> H]. simpl. auto.
Qed.

Lemma non_space_commas m :
  forallb comma_or_space m = true -> forallb (is_char ",") (non_space m) = true.
Proof.
  unfold non_space, comma_or_space.
  induction m as [|c m IH]; simpl; [reflexivity|].
  intros H. apply andb_prop in H as [Hc H].
  destruct (is_space c); simpl; [auto|].
  rewrite orb_false_r in Hc. now rewrite Hc, IH.
Qed.

(** X3: the normaliser keeps the characters that are not whitespace, in
    their order, up to commas cut at the end: it never changes, drops or
    reorders a character inside the text. *)
Theorem clean_place_keeps_text (s : pystr) :
  exists m,
    non_space s = non_space (_clean_place (Some s)) ++ m
    /\ forallb (is_char ",") m = true.
Proof.
  rewrite clean_place_spec. unfold normalize_spec.
  set (a := collapse_runs s).
  set (b := drop_while is_space a).
  set (c := rstrip is_space b).
  destruct (rstrip_split comma_or_space c) as (m & Hm & Hpm).
  exists (non_space m). split; [|now apply non_space_commas].
  assert (Ha : non_space s = non_space a) by (symmetry; apply non_space_squeeze).
  assert (Hb : non_space a = non_space b).
  { destruct (drop_while_split is_space a) as (l & Hl & Hpl). fold b in Hl.
    rewrite Hl at 1. unfold non_space at 1. rewrite filter_app.
    fold (non_space l). now rewrite non_space_spaces. }
  assert (Hc : non_space b = non_space c).
  { destruct (rstrip_split is_space b) as (l & Hl & Hpl). fold c in Hl.
    rewrite Hl at 1. unfold non_space at 1. rewrite filter_app.
    fold (non_space l). rewrite (non_space_spaces _ Hpl). apply app_nil_r. }
  rewrite Ha, Hb, Hc. rewrite Hm at 1.
  unfold non_space. apply filter_app.
Qed.

End CleanFacts.

(** ** The coordinate parser *)

Section ParserFacts.

Context {PB : PyBuiltins}.

Lemma forallb_weaken (p q : char -> bool) (l : pystr) :
  (forall c, p c = true -> q c = true) ->
  forallb p l = true -> forallb q l = true.
Proof. intros Hpq. rewrite !forallb_forall. auto. Qed.

(** A success of [p*] is a success of what follows, after some
    characters of [p]. *)
Lemma star_sound A p s : forall i g (k : cont A) a,
  star p i s g k = Some a ->
  exists u t, s = u ++ t /\ forallb p u = true
              /\ k (i + List.length u) t g = Some a.
Proof.
  induction s as [|c s IH]; intros i g k a H; simpl in H.
  - exists [], []. simpl. now rewrite Nat.add_0_r.
  - destruct (p c) eqn:Ec.
    + destruct (star p (S i) s g k) as [x|] eqn:Es.
      * injection H as ->. apply IH in Es as (u & t & -> & Hu & Hk).
        exists (c :: u), t. simpl. rewrite Ec, Hu.
        repeat split. now rewrite Nat.add_succ_r.
      * exists [], (c :: s). simpl. now rewrite Nat.add_0_r.
    + exists [], (c :: s). simpl. now rewrite Nat.add_0_r.
Qed.

(** A success of a pattern is a success of what follows, after some
    characters the pattern can read. *)
Lemma rmatch_sound A r : forall i s g (k : cont A) a,
  rmatch r i s g k = Some a ->
  exists u t j g', s = u ++ t /\ forallb (reads r) u = true
                   /\ k j t g' = Some a.
Proof.
  induction r as [p|r1 IH1 r2 IH2|r1 IH1|p|n r1 IH1| |]; intros i s g k a H;
    cbn [rmatch reads] in *.
  - destruct s as [|c s]; [discriminate|].
    destruct (p c) eqn:Ec; [|discriminate].
    exists [c], s, (S i), g. simpl. now rewrite Ec.
  - apply IH1 in H as (u1 & t1 & j1 & g1 & -> & Hu1 & H).
    apply IH2 in H as (u2 & t2 & j2 & g2 & -> & Hu2 & H).
    exists (u1 ++ u2), t2, j2, g2. rewrite <- app_assoc. repeat split; [|exact H].
    rewrite forallb_app. apply andb_true_intro. split.
    + revert Hu1. apply forallb_weaken. intros c ->. reflexivity.
    + revert Hu2. apply forallb_weaken. intros c ->. apply orb_true_r.
  - destruct (rmatch r1 i s g k) as [x|] eqn:E.
    + injection H as ->. now apply IH1 in E.
    + now exists [], s, i, g.
  - apply star_sound in H as (u & t & -> & Hu & H). now exists u, t, (i + List.length u), g.
  - apply IH1 in H as (u & t & j & g' & -> & Hu & H).
    now exists u, t, j, ((n, firstn (j - i) (u ++ t)) :: g').
  - destruct (Nat.eqb i 0); [|discriminate]. now exists [], s, i, g.
  - destruct (at_eol s); [|discriminate]. now exists [], s, i, g.
Qed.

Lemma latlon_body_eol A i s g (k : cont A) :
  rmatch re_latlon i s g k =
  rmatch re_latlon_body i s g (fun j t g' => rmatch REol j t g' k).
Proof. reflexivity. Qed.

Lemma reads_latlon_body c : reads re_latlon_body c = true -> coord_char c = true.
Proof.
  unfold coord_char, sign_char. cbn [reads re_latlon_body re_number RPlus].
  destruct (is_space c) eqn:Es; [reflexivity|].
  destruct (is_digit c); [reflexivity|].
  destruct (is_char "+" c); [reflexivity|].
  destruct (is_char "-" c); [reflexivity|].
  destruct (is_char "." c); [reflexivity|].
  destruct (is_char "," c); [reflexivity|].
  simpl. unfold is_char. intros H.
  repeat rewrite orb_false_r in H. apply N.eqb_eq in H. subst c. discriminate.
Qed.

(** X4: a text that holds a character other than whitespace, digits,
    signs, the point and the comma is never read as a coordinate pair: it
    goes on to the lookups. *)
Theorem parse_latlon_rejects (s : pystr) (c : char) :
  In c s -> coord_char c = false -> _parse_latlon s = None.
Proof.
  intros Hin Hc. unfold _parse_latlon, re_match.
  destruct (rmatch re_latlon 0 s [] (fun _ _ g => Some g)) as [m|] eqn:E;
    [|reflexivity].
  exfalso. rewrite latlon_body_eol in E.
  apply rmatch_sound in E as (u & t & j & g' & -> & Hu & H).
  cbn [rmatch] in H.
  assert (Ht : forallb coord_char t = true).
  { destruct t as [|d [|e t]]; simpl in H; try discriminate; [reflexivity|].
    destruct (d =? 10)%N eqn:Ed; [|discriminate].
    apply N.eqb_eq in Ed. subst d. reflexivity. }
  assert (Hall : forallb coord_char (u ++ t) = true).
  { rewrite forallb_app, Ht, andb_true_r.
    revert Hu. apply forallb_weaken, reads_latlon_body. }
  rewrite forallb_forall in Hall. specialize (Hall c Hin). congruence.
Qed.

(** *** Which texts are read as a pair *)

Section Pairs.

(** No character is both whitespace and a digit (so it is in Unicode). *)
Hypothesis space_not_digit : forall c, is_space c = true -> is_digit c = false.

Lemma take_drop_while p s :
  s = take_while p s ++ drop_while p s /\ forallb p (take_while p s) = true.
Proof.
  induction s as [|c s [IH1 IH2]]; simpl; [auto|].
  destruct (p c) eqn:E; simpl; [|auto].
  rewrite E, IH2. split; [now f_equal|reflexivity].
Qed.

Lemma firstn_exact (l r : pystr) : firstn (List.length l) (l ++ r) = l.
Proof. induction l; simpl; [reflexivity|now f_equal]. Qed.

Lemma rmatch_seq A r1 r2 i s g (k : cont A) :
  rmatch (RSeq r1 r2) i s g k =
  rmatch r1 i s g (fun j t g' => rmatch r2 j t g' k).
Proof. reflexivity. Qed.

Lemma rmatch_set A p i c s g (k : cont A) :
  rmatch (RSet p) i (c :: s) g k = if p c then k (S i) s g else None.
Proof. reflexivity. Qed.

Lemma rmatch_star A p i s g (k : cont A) :
  rmatch (RStar p) i s g k = star p i s g k.
Proof. reflexivity. Qed.

(** When what follows succeeds after the whole run, [p*] returns that. *)
Lemma star_greedy A p run : forall i rest g (k : cont A) a,
  forallb p run = true -> starts_clean p rest = true ->
  k (i + List.length run) rest g = Some a ->
  star p i (run ++ rest) g k = Some a.
Proof.
  induction run as [|c run IH]; intros i rest g k a Hr Hc Hk.
  - simpl in *. rewrite Nat.add_0_r in Hk.
    destruct rest as [|d rest]; [exact Hk|].
    simpl in *. apply negb_true_iff in Hc. now rewrite Hc.
  - simpl in Hr. apply andb_prop in Hr as [Hpc Hr].
    cbn [app star]. rewrite Hpc.
    rewrite (IH (S i) rest g k a Hr Hc); [reflexivity|].
    rewrite <- Hk. f_equal. simpl. lia.
Qed.

Lemma plus_greedy A p c run i rest g (k : cont A) a :
  p c = true -> forallb p run = true -> starts_clean p rest = true ->
  k (i + S (List.length run)) rest g = Some a ->
  rmatch (RPlus p) i (c :: run ++ rest) g k = Some a.
Proof.
  intros Hc Hr Hs Hk. unfold RPlus. cbn [rmatch]. rewrite Hc.
  apply star_greedy; auto. rewrite <- Hk. f_equal. lia.
Qed.

Lemma unsigned_shape n :
  is_unsigned n = true ->
  exists d int frac,
    n = d :: int ++ frac
    /\ is_digit d = true /\ forallb is_digit int = true
    /\ (frac = []
        \/ exists f fs, frac = ch "." :: f :: fs
                        /\ is_digit f = true /\ forallb is_digit fs = true).
Proof.
  unfold is_unsigned. destruct (take_drop_while is_digit n) as [Hn Hd].
  destruct (take_while is_digit n) as [|d int]; [discriminate|].
  simpl in Hd. apply andb_prop in Hd as [Hd Hint].
  destruct (drop_while is_digit n) as [|c [|f fs]]; try discriminate.
  - intros _. exists d, int, []. simpl in Hn. auto.
  - intros H. apply andb_prop in H as [Hc H]. simpl in H.
    apply andb_prop in H as [Hf Hfs].
    apply N.eqb_eq in Hc. subst c.
    exists d, int, (ch "." :: f :: fs). simpl in Hn.
    repeat split; auto. right. now exists f, fs.
Qed.

Lemma after_number_digit rest :
  starts_clean after_number rest = true -> starts_clean is_digit rest = true.
Proof.
  destruct rest as [|c rest]; [reflexivity|]. unfold after_number. simpl.
  destruct (is_digit c); [discriminate|reflexivity].
Qed.

Lemma match_unsigned A n i rest g (k : cont A) a :
  is_unsigned n = true -> starts_clean after_number rest = true ->
  k (i + List.length n) rest g = Some a ->
  rmatch re_unsigned i (n ++ rest) g k = Some a.
Proof.
  intros Hn Hrest Hk.
  apply unsigned_shape in Hn as (d & int & frac & -> & Hd & Hint & Hfrac).
  unfold re_unsigned. cbn [rmatch].
  change ((d :: int ++ frac) ++ rest) with (d :: (int ++ frac) ++ rest).
  rewrite <- app_assoc.
  destruct Hfrac as [->|(f & fs & -> & Hf & Hfs)].
  - apply plus_greedy; auto using after_number_digit.
    assert (Hpos : i + S (List.length int) = i + List.length (d :: int ++ []))
      by (simpl; rewrite length_app; simpl; lia).
    simpl app. destruct rest as [|c rest]; [now rewrite Hpos|].
    unfold after_number in Hrest. simpl in Hrest.
    destruct (is_char "." c); [now rewrite orb_true_r in Hrest|].
    now rewrite Hpos.
  - apply plus_greedy; auto.
    cbn [app rmatch]. change (is_char "." (ch ".")) with true. cbv iota.
    rewrite (@plus_greedy A is_digit f fs _ rest g k a Hf Hfs
               (after_number_digit _ Hrest)); [reflexivity|].
    rewrite <- Hk. f_equal. simpl. rewrite length_app. simpl. lia.
Qed.

Lemma match_number A gi n i rest g (k : cont A) a :
  is_number n = true -> starts_clean after_number rest = true ->
  k (i + List.length n) rest ((gi, n) :: g) = Some a ->
  rmatch (RGroup gi re_number) i (n ++ rest) g k = Some a.
Proof.
  intros Hn Hrest Hk. cbn [rmatch].
  change re_number with (RSeq (ROpt (RSet sign_char)) re_unsigned).
  cbn [rmatch].
  assert (Hg : firstn (i + List.length n - i) (n ++ rest) = n).
  { replace (i + List.length n - i) with (List.length n) by lia.
    apply firstn_exact. }
  destruct n as [|c n]; [discriminate|]. cbn [is_number] in Hn.
  cbn [app]. destruct (sign_char c) eqn:Ec.
  - rewrite (@match_unsigned A n (S i) rest g _ a Hn Hrest); [reflexivity|].
    replace (S i + List.length n) with (i + List.length (c :: n)) by (simpl; lia).
    cbn [app] in Hg. now rewrite Hg.
  - change (c :: n ++ rest) with ((c :: n) ++ rest).
    apply match_unsigned; auto. now rewrite Hg.
Qed.

Lemma number_head n rest :
  is_number n = true -> starts_clean is_space (n ++ rest) = true
  /\ starts_clean (fun c => is_char "," c || is_char " " c) (n ++ rest) = true.
Proof.
  destruct n as [|c n]; [discriminate|]. cbn [is_number app starts_clean].
  unfold sign_char, is_char. intros H.
  destruct (c =? ch "+")%N eqn:E1; [apply N.eqb_eq in E1; subst c; now split|].
  destruct (c =? ch "-")%N eqn:E2; [apply N.eqb_eq in E2; subst c; now split|].
  simpl in H. apply unsigned_shape in H as (d & int & frac & Heq & Hd & _).
  injection Heq as -> _.
  split.
  - destruct (is_space d) eqn:Es; [|reflexivity].
    apply space_not_digit in Es. congruence.
  - destruct (d =? ch ",")%N eqn:E3; [apply N.eqb_eq in E3; subst d; discriminate|].
    destruct (d =? ch " ")%N eqn:E4; [apply N.eqb_eq in E4; subst d; discriminate|].
    reflexivity.
Qed.

Lemma spaces_after_number ws rest :
  forallb is_space ws = true ->
  (ws = [] -> starts_clean after_number rest = true) ->
  starts_clean after_number (ws ++ rest) = true.
Proof.
  destruct ws as [|c ws]; [auto|]. simpl. intros H _.
  apply andb_prop in H as [Hc _]. unfold after_number.
  rewrite (space_not_digit _ Hc). simpl.
  unfold is_char. destruct (c =? ch ".")%N eqn:E; [|reflexivity].
  apply N.eqb_eq in E. subst c. discriminate.
Qed.

(** From the separator on, the pattern matches and sets group 2. *)
Lemma match_tail c ws3 n2 ws4 j g :
  is_char "," c || is_char " " c = true ->
  forallb is_space ws3 = true -> is_number n2 = true ->
  forallb is_space ws4 = true ->
  rmatch re_latlon_tail j (c :: ws3 ++ n2 ++ ws4) g (fun _ _ g' => Some g')
  = Some ((2, n2) :: g).
Proof.
  intros Hc H3 Hn H4. unfold re_latlon_tail.
  rewrite rmatch_seq, rmatch_set, Hc, rmatch_seq, rmatch_star.
  apply star_greedy; [exact H3|apply (@number_head n2 ws4 Hn)|].
  rewrite rmatch_seq.
  apply match_number; [exact Hn| |].
  - rewrite <- (app_nil_r ws4). now apply spaces_after_number.
  - rewrite rmatch_seq, rmatch_star, <- (app_nil_r ws4).
    apply star_greedy; auto.
Qed.

Lemma rmatch_bol A s g (k : cont A) : rmatch RBol 0 s g k = k 0 s g.
Proof. reflexivity. Qed.

Lemma latlon_split :
  re_latlon =
  RSeq RBol
    (RSeq (RStar is_space)
       (RSeq (RGroup 1 re_number) (RSeq (RStar is_space) re_latlon_tail))).
Proof. reflexivity. Qed.

(** When something succeeds after some characters of [p], [p*] succeeds. *)
Lemma star_complete A p u : forall i t g (k : cont A) a,
  forallb p u = true -> k (i + List.length u) t g = Some a ->
  exists x, star p i (u ++ t) g k = Some x.
Proof.
  induction u as [|c u IH]; intros i t g k a Hu Hk.
  - simpl in *. rewrite Nat.add_0_r in Hk.
    destruct t as [|d t]; simpl; [eauto|].
    destruct (p d); [|eauto].
    destruct (star p (S i) t g k); eauto.
  - simpl in Hu. apply andb_prop in Hu as [Hc Hu]. cbn [app star]. rewrite Hc.
    destruct (IH (S i) t g k a Hu) as [x ->]; [|eauto].
    rewrite <- Hk. f_equal. simpl. lia.
Qed.

(** A run of whitespace in front of something else: a prefix of
    whitespace ends inside the run. *)
Lemma space_prefix u : forall t w r,
  u ++ t = w ++ r -> forallb is_space u = true ->
  starts_clean is_space r = true ->
  exists w', w = u ++ w' /\ t = w' ++ r.
Proof.
  induction u as [|c u IH]; intros t w r H Hu Hr; [now exists w|].
  simpl in Hu. apply andb_prop in Hu as [Hc Hu].
  destruct w as [|d w]; simpl in H.
  - subst r. simpl in Hr. now rewrite Hc in Hr.
  - injection H as -> H. destruct (IH _ _ _ H Hu Hr) as (w' & -> & ->).
    now exists w'.
Qed.

(** X5: a number, a comma and a number, with any whitespace around each
    of them, are read as the pair of the two numbers, first number
    first. *)
Theorem parse_latlon_comma ws1 n1 ws2 ws3 n2 ws4 :
  forallb is_space ws1 = true -> is_number n1 = true ->
  forallb is_space ws2 = true -> forallb is_space ws3 = true ->
  is_number n2 = true -> forallb is_space ws4 = true ->
  _parse_latlon (ws1 ++ n1 ++ ws2 ++ py "," ++ ws3 ++ n2 ++ ws4)
  = Some (float n1, float n2).
Proof.
  intros H1 Hn1 H2 H3 Hn2 H4. unfold _parse_latlon, re_match.
  change (py "," ++ ws3 ++ n2 ++ ws4) with (ch "," :: ws3 ++ n2 ++ ws4).
  assert (E : rmatch re_latlon 0 (ws1 ++ n1 ++ ws2 ++ ch "," :: ws3 ++ n2 ++ ws4) []
                (fun _ _ g => Some g) = Some [(2, n2); (1, n1)]).
  { rewrite latlon_split, rmatch_seq, rmatch_bol, rmatch_seq, rmatch_star.
    apply star_greedy; [exact H1|apply (@number_head n1 _ Hn1)|].
    rewrite rmatch_seq. apply match_number; [exact Hn1| |].
    - now apply spaces_after_number.
    - rewrite rmatch_seq, rmatch_star.
      apply star_greedy; [exact H2|reflexivity|].
      now apply match_tail. }
  now rewrite E.
Qed.

(** From a run of whitespace with a space in it on, the pattern matches
    and sets group 2: the run is given back up to its last space. *)
Lemma match_blank_tail w n2 ws4 j g :
  forallb is_space w = true -> In (ch " ") w ->
  is_number n2 = true -> forallb is_space ws4 = true ->
  star is_space j (w ++ n2 ++ ws4) g
    (fun j' t g' => rmatch re_latlon_tail j' t g' (fun _ _ g'' => Some g''))
  = Some ((2, n2) :: g).
Proof.
  intros Hw Hin Hn2 H4.
  destruct (in_split _ _ Hin) as (a & b & ->).
  rewrite forallb_app in Hw. apply andb_prop in Hw as [Ha Hb].
  simpl in Hb.
  destruct (@star_complete _ is_space a j ((ch " " :: b) ++ n2 ++ ws4) g
              (fun j' t g' => rmatch re_latlon_tail j' t g' (fun _ _ g'' => Some g''))
              ((2, n2) :: g) Ha) as [x Hx].
  { now apply match_tail. }
  rewrite <- app_assoc. rewrite Hx. f_equal.
  apply star_sound in Hx as (u & t & Hut & Hu & Hk).
  rewrite app_assoc in Hut. symmetry in Hut.
  apply space_prefix in Hut as (w' & Hw' & ->);
    [|exact Hu|apply (@number_head n2 ws4 Hn2)].
  assert (Hsp : forallb is_space w' = true).
  { assert (H : forallb is_space (a ++ ch " " :: b) = true)
      by (rewrite forallb_app, Ha; simpl; exact Hb).
    rewrite Hw', forallb_app in H. now apply andb_prop in H as [_ H]. }
  destruct w' as [|c w'].
  - exfalso. cbn [app] in Hk. unfold re_latlon_tail in Hk.
    rewrite rmatch_seq in Hk.
    destruct (@number_head n2 ws4 Hn2) as [_ Hsep].
    destruct (n2 ++ ws4) as [|d r]; [discriminate|].
    rewrite rmatch_set in Hk. simpl in Hsep. apply negb_true_iff in Hsep.
    now rewrite Hsep in Hk.
  - cbn [app] in Hk. simpl in Hsp. apply andb_prop in Hsp as [Hc Hsp].
    destruct (is_char "," c || is_char " " c) eqn:Ec.
    + rewrite match_tail in Hk by assumption. congruence.
    + unfold re_latlon_tail in Hk. rewrite rmatch_seq, rmatch_set, Ec in Hk.
      discriminate.
Qed.

(** X6: two numbers with only whitespace between them, a space among it,
    are read as the pair of the two numbers, with any whitespace around
    them. *)
Theorem parse_latlon_space ws1 n1 w n2 ws4 :
  forallb is_space ws1 = true -> is_number n1 = true ->
  forallb is_space w = true -> In (ch " ") w ->
  is_number n2 = true -> forallb is_space ws4 = true ->
  _parse_latlon (ws1 ++ n1 ++ w ++ n2 ++ ws4) = Some (float n1, float n2).
Proof.
  intros H1 Hn1 Hw Hin Hn2 H4. unfold _parse_latlon, re_match.
  assert (E : rmatch re_latlon 0 (ws1 ++ n1 ++ w ++ n2 ++ ws4) []
                (fun _ _ g => Some g) = Some [(2, n2); (1, n1)]).
  { rewrite latlon_split, rmatch_seq, rmatch_bol, rmatch_seq, rmatch_star.
    apply star_greedy; [exact H1|apply (@number_head n1 _ Hn1)|].
    rewrite rmatch_seq. apply match_number; [exact Hn1| |].
    - apply spaces_after_number; [exact Hw|]. intros ->. destruct Hin.
    - rewrite rmatch_seq, rmatch_star. now apply match_blank_tail. }
  now rewrite E.
Qed.

End Pairs.

End ParserFacts.

(** ** The resolver, for any network *)

Section LoopFacts.

Context {PB : PyBuiltins} {NW : Network}.

Lemma candidates_length cleaned : List.length (candidates cleaned) <= 3.
Proof.
  unfold candidates. rewrite !length_app.
  destruct (contains "," cleaned); simpl; lia.
Qed.

Lemma queries_length cleaned : List.length (queries cleaned) <= 3.
Proof.
  unfold queries, untried.
  etransitivity; [apply filter_length_le|apply candidates_length].
Qed.

(** Whatever the answers, the loop sends the queries in order, each to
    the geocoding address, and stops somewhere. *)
Lemma lookup_loop_requests place lang qs : forall tried st,
  exists k,
    k <= List.length qs
    /\ calls (snd (lookup_loop place lang qs tried st)) =
       calls st ++ map (fun q => geocoding_request q lang) (firstn k qs).
Proof.
  induction qs as [|q qs IH]; intros tried st.
  - exists 0. simpl. now rewrite app_nil_r.
  - cbn [lookup_loop]. unfold bind at 1, client_get.
    destruct (http_get (geocoding_request q lang) (net st)) as [o w].
    assert (One : forall r : result pyval,
      exists k, k <= List.length (q :: qs)
        /\ calls (snd (r, {| net := w; calls := calls st ++ [geocoding_request q lang] |}))
           = calls st ++ map (fun q => geocoding_request q lang) (firstn k (q :: qs))).
    { intros r. exists 1. simpl. split; [lia|reflexivity]. }
    destruct o as [|status body]; [apply One|].
    unfold bind, lift, raise_for_status, json. cbn [fst snd].
    destruct ((200 <=? status)%Z && (status <=? 299)%Z); [|apply One].
    destruct body as [data|]; [|apply One].
    destruct (py_get data (py "results") VNone) as [results|e]; [|apply One].
    destruct (py_bool results); [apply One|].
    destruct (IH (tried ++ [q])
                {| net := w; calls := calls st ++ [geocoding_request q lang] |})
      as (k & Hk & Hc).
    exists (S k). split; [simpl; lia|].
    rewrite Hc. cbn [calls firstn map]. now rewrite <- app_assoc.
Qed.

Lemma geocode_calls place lang st :
  exists k,
    k <= 3
    /\ calls (snd (_geocode place lang st)) =
       calls st
       ++ map (fun q => geocoding_request q lang)
              (firstn k (queries (_clean_place (Some place)))).
Proof.
  unfold _geocode.
  destruct (_parse_latlon (_clean_place (Some place))) as [[lat lon]|].
  - exists 0. simpl. split; [lia|now rewrite app_nil_r].
  - destruct (lookup_loop_requests place lang (queries (_clean_place (Some place))) [] st)
      as (k & Hk & Hc).
    exists k. split; [|exact Hc].
    pose proof (queries_length (_clean_place (Some place))). lia.
Qed.

(** X7: whatever the geocoding service answers, the resolver keeps the
    log it found and adds at most three requests to it: the first queries
    of its list, in order, each to the geocoding address with [count] 1
    and the language as parameter and header. *)
Theorem geocode_requests place lang st :
  exists k,
    k <= 3
    /\ calls (snd (_geocode place lang st)) =
       calls st
       ++ map (fun q => geocoding_request q lang)
              (firstn k (queries (_clean_place (Some place)))).
Proof. apply geocode_calls. Qed.

(** Over queries that find nothing the loop just moves on. *)
Lemma lookup_loop_skip place lang pre : forall rest tried st,
  all_empty lang pre (net st) = true ->
  lookup_loop place lang (pre ++ rest) tried st =
  lookup_loop place lang rest (tried ++ pre)
    {| net := world_after lang pre (net st);
       calls := calls st ++ map (fun q => geocoding_request q lang) pre |}.
Proof.
  induction pre as [|q pre IH]; intros rest tried st H.
  - simpl. rewrite !app_nil_r. now destruct st.
  - cbn [all_empty] in H.
    destruct (http_get (geocoding_request q lang) (net st)) as [o w] eqn:E.
    apply andb_prop in H as [Ho Hq].
    cbn [app]. rewrite lookup_empty_next by now rewrite E.
    rewrite IH by (cbn [net]; now rewrite E).
    cbn [net calls world_after map]. rewrite E. cbn [snd].
    now rewrite <- !app_assoc.
Qed.

(** One turn on an answer that cannot be used: the error ends the
    resolution. *)
Lemma lookup_failure_aborts place lang q qs tried st e :
  failure_of (fst (http_get (geocoding_request q lang) (net st))) = Some e ->
  lookup_loop place lang (q :: qs) tried st =
  (Raise e,
   {| net := snd (http_get (geocoding_request q lang) (net st));
      calls := calls st ++ [geocoding_request q lang] |}).
Proof.
  cbn [lookup_loop]. unfold bind at 1, client_get, failure_of.
  destruct (http_get (geocoding_request q lang) (net st)) as [o w]. cbn [fst snd].
  destruct o as [|status body]; [now intros [= <-]|].
  unfold bind, lift, raise_for_status, json. cbn [fst snd].
  destruct ((200 <=? status)%Z && (status <=? 299)%Z); [|now intros [= <-]].
  destruct body; [discriminate|now intros [= <-]].
Qed.

(** X8: when the first queries find nothing and the next one finds
    something, the resolver returns the first result of that answer as it
    is; it has sent these queries and no later one. *)
Theorem geocode_first_hit place lang st pre q post status d x xs :
  _parse_latlon (_clean_place (Some place)) = None ->
  queries (_clean_place (Some place)) = pre ++ q :: post ->
  all_empty lang pre (net st) = true ->
  fst (http_get (geocoding_request q lang) (world_after lang pre (net st)))
  = Response status (Some (VDict d)) ->
  (200 <= status <= 299)%Z ->
  lookup (py "results") d = Some (VList (x :: xs)) ->
  _geocode place lang st =
  (Ok x,
   {| net := snd (http_get (geocoding_request q lang) (world_after lang pre (net st)));
      calls := calls st ++ map (fun q => geocoding_request q lang) (pre ++ [q]) |}).
Proof.
  intros Hp Hq He Ho Hs Hr. unfold _geocode. rewrite Hp, Hq.
  rewrite lookup_loop_skip by exact He.
  erewrite lookup_hit_stops; [|cbn [net]; exact Ho|exact Hs|exact Hr].
  cbn [net calls]. now rewrite map_app, <- app_assoc.
Qed.

(** X9: when the first queries find nothing and the next lookup fails
    (no answer, a status outside 2xx, a body that is not JSON), the
    resolver raises that error; the queries after it are not sent. *)
Theorem geocode_failure_stops place lang st pre q post e :
  _parse_latlon (_clean_place (Some place)) = None ->
  queries (_clean_place (Some place)) = pre ++ q :: post ->
  all_empty lang pre (net st) = true ->
  failure_of (fst (http_get (geocoding_request q lang) (world_after lang pre (net st))))
  = Some e ->
  _geocode place lang st =
  (Raise e,
   {| net := snd (http_get (geocoding_request q lang) (world_after lang pre (net st)));
      calls := calls st ++ map (fun q => geocoding_request q lang) (pre ++ [q]) |}).
Proof.
  intros Hp Hq He Hf. unfold _geocode. rewrite Hp, Hq.
  rewrite lookup_loop_skip by exact He.
  rewrite lookup_failure_aborts with (e := e) by (cbn [net]; exact Hf).
  cbn [net calls]. now rewrite map_app, <- app_assoc.
Qed.

End LoopFacts.

Section QueryFacts.

Context {PB : PyBuiltins}.

Lemma blank_punct_none s : existsb is_punct s = false -> blank_punct s = s.
Proof.
  unfold blank_punct. induction s as [|c s IH]; simpl; [reflexivity|].
  intros H. apply orb_false_elim in H as [-> H]. f_equal. now apply IH.
Qed.

Lemma strip_rstrip s : strip s = rstrip is_space (drop_while is_space s).
Proof. reflexivity. Qed.

(** X10: for a text in normal form (as the normaliser returns it) that
    is not empty and has neither a comma nor punctuation, the list of
    queries is that text twice: the filter in front of the loop does not
    remove the repetition. *)
Theorem queries_plain_text_twice (cleaned : pystr) :
  normal_form cleaned ->
  cleaned <> [] ->
  contains "," cleaned = false ->
  existsb is_punct cleaned = false ->
  queries cleaned = [cleaned; cleaned].
Proof.
  intros (_ & Hh & He) Hne Hcomma Hpunct.
  rewrite queries_nonempty_candidates. unfold candidates.
  rewrite Hcomma, sub_punct, (blank_punct_none _ Hpunct), strip_rstrip.
  rewrite (drop_while_clean _ _ Hh), (rstrip_clean _ _ (ends_clean_space _ He)).
  destruct cleaned; [congruence|reflexivity].
Qed.

Lemma strip_clean s :
  starts_clean is_space (strip s) = true /\ ends_clean is_space (strip s) = true.
Proof.
  rewrite strip_rstrip. split.
  - apply starts_clean_rstrip, starts_clean_drop_while.
  - apply ends_clean_rstrip.
Qed.

(** X18: the queries made of a place are never empty and never begin or
    end with whitespace; when the cleaned text is not empty it is the
    first of them. *)
Theorem queries_well_formed (place : pystr) :
  (forall q, In q (queries (_clean_place (Some place))) ->
             q <> []
             /\ starts_clean is_space q = true
             /\ ends_clean is_space q = true)
  /\ (_clean_place (Some place) = []
      \/ hd_error (queries (_clean_place (Some place)))
         = Some (_clean_place (Some place))).
Proof.
  rewrite queries_nonempty_candidates.
  destruct (normalize_spec_normal place) as (_ & Hh & He).
  rewrite <- clean_place_spec in Hh, He. apply ends_clean_space in He.
  set (cleaned := _clean_place (Some place)) in *. split.
  - intros q Hq. apply filter_In in Hq as [Hin Hne].
    split; [now destruct q|].
    unfold candidates in Hin.
    apply in_app_or in Hin as [[<-|[]]|Hin]; [now split|].
    apply in_app_or in Hin as [Hin|[<-|[]]]; [|apply strip_clean].
    destruct (contains "," cleaned); [|destruct Hin].
    destruct Hin as [<-|[]]. apply strip_clean.
  - destruct cleaned as [|c cleaned]; [now left|right; reflexivity].
Qed.

End QueryFacts.

(** ** The tool, step by step *)

Section ForecastFacts.

Context {PB : PyBuiltins} {NW : Network}.

(** X11: the tool sees its place only through the normaliser: a call
    with a text and a call with the cleaned text are the same call. *)
Theorem forecast_of_cleaned place days u lang st :
  get_weather_forecast place days u lang st =
  get_weather_forecast (_clean_place (Some place)) days u lang st.
Proof.
  unfold get_weather_forecast. cbv zeta.
  now rewrite clean_place_idempotent.
Qed.

(** The steps after the resolver, on a location with both coordinates
    and a forecast answer that reshapes. *)
Lemma forecast_after_geocode place days u lang st st1 loc lat lon status data daily :
  _geocode (_clean_place (Some place)) lang st = (Ok (VDict loc), st1) ->
  lookup (py "latitude") loc = Some lat ->
  lookup (py "longitude") loc = Some lon ->
  fst (http_get (forecast_request lat lon days u) (net st1))
  = Response status (Some (VDict data)) ->
  (200 <= status <= 299)%Z ->
  reshape_daily (VDict data) = Ok daily ->
  get_weather_forecast place days u lang st =
  (Ok (VDict [(py "query", VStr (_clean_place (Some place)));
              (py "location",
               VDict [(py "name", dict_get loc (py "name") VNone);
                      (py "country", dict_get loc (py "country") VNone);
                      (py "admin1", dict_get loc (py "admin1") VNone);
                      (py "latitude", lat);
                      (py "longitude", lon);
                      (py "timezone", dict_get data (py "timezone") VNone)]);
              (py "units", dict_get data (py "daily_units") (VDict []));
              (py "daily", VList daily)]),
   {| net := snd (http_get (forecast_request lat lon days u) (net st1));
      calls := calls st1 ++ [forecast_request lat lon days u] |}).
Proof.
  intros Hg Hlat Hlon Ho Hs Hd.
  unfold get_weather_forecast. cbv zeta. unfold bind at 1. rewrite Hg.
  unfold bind at 1, lift at 1. cbn [getitem_key]. rewrite Hlat.
  unfold bind at 1, lift at 1. cbn [getitem_key]. rewrite Hlon.
  unfold bind at 1, client_get.
  destruct (http_get (forecast_request lat lon days u) (net st1)) as [o w].
  cbn [fst snd] in *. subst o.
  unfold bind, lift, ret, raise_for_status, json. cbn [fst snd].
  replace ((200 <=? status)%Z && (status <=? 299)%Z) with true
    by (symmetry; apply andb_true_intro; split; apply Z.leb_le; lia).
  rewrite Hd. reflexivity.
Qed.

(** X12: for a place that is a coordinate pair the tool makes exactly
    one request, the forecast request for the parsed pair, and answers
    with the cleaned text as name, no country and no region. *)
Theorem forecast_for_coordinates place days u lang st lat lon status data daily :
  _parse_latlon (_clean_place (Some place)) = Some (lat, lon) ->
  fst (http_get (forecast_request (VFloat lat) (VFloat lon) days u) (net st))
  = Response status (Some (VDict data)) ->
  (200 <= status <= 299)%Z ->
  reshape_daily (VDict data) = Ok daily ->
  get_weather_forecast place days u lang st =
  (Ok (VDict [(py "query", VStr (_clean_place (Some place)));
              (py "location",
               VDict [(py "name", VStr (_clean_place (Some place)));
                      (py "country", VNone);
                      (py "admin1", VNone);
                      (py "latitude", VFloat lat);
                      (py "longitude", VFloat lon);
                      (py "timezone", dict_get data (py "timezone") VNone)]);
              (py "units", dict_get data (py "daily_units") (VDict []));
              (py "daily", VList daily)]),
   {| net := snd (http_get (forecast_request (VFloat lat) (VFloat lon) days u) (net st));
      calls := calls st ++ [forecast_request (VFloat lat) (VFloat lon) days u] |}).
Proof.
  intros Hp Ho Hs Hd.
  assert (Hg : _geocode (_clean_place (Some place)) lang st =
               (Ok (VDict [(py "name", VStr (_clean_place (Some place)));
                           (py "country", VNone);
                           (py "admin1", VNone);
                           (py "latitude", VFloat lat);
                           (py "longitude", VFloat lon)]), st)).
  { unfold _geocode. rewrite clean_place_idempotent, Hp. reflexivity. }
  rewrite (forecast_after_geocode _ _ _ _ _ Hg eq_refl eq_refl Ho Hs Hd).
  reflexivity.
Qed.

(** X13: when the resolver finds a location with both coordinates and
    the forecast answer reshapes, the tool makes one more request, the
    forecast request for these coordinates, and assembles its answer from
    the two: the name, country and region of the location ([None] where
    it has none), the coordinates as found, the time zone of the forecast
    ([None] without one), its unit labels (an empty dictionary without
    them) and the reshaped days. *)
Theorem forecast_assembled place days u lang st st1 loc lat lon status data daily :
  _geocode (_clean_place (Some place)) lang st = (Ok (VDict loc), st1) ->
  lookup (py "latitude") loc = Some lat ->
  lookup (py "longitude") loc = Some lon ->
  fst (http_get (forecast_request lat lon days u) (net st1))
  = Response status (Some (VDict data)) ->
  (200 <= status <= 299)%Z ->
  reshape_daily (VDict data) = Ok daily ->
  get_weather_forecast place days u lang st =
  (Ok (VDict [(py "query", VStr (_clean_place (Some place)));
              (py "location",
               VDict [(py "name", dict_get loc (py "name") VNone);
                      (py "country", dict_get loc (py "country") VNone);
                      (py "admin1", dict_get loc (py "admin1") VNone);
                      (py "latitude", lat);
                      (py "longitude", lon);
                      (py "timezone", dict_get data (py "timezone") VNone)]);
              (py "units", dict_get data (py "daily_units") (VDict []));
              (py "daily", VList daily)]),
   {| net := snd (http_get (forecast_request lat lon days u) (net st1));
      calls := calls st1 ++ [forecast_request lat lon days u] |}).
Proof. apply forecast_after_geocode. Qed.

(** X14: when the resolver raises, or returns something without a
    latitude or a longitude, the tool raises that error in the state the
    resolver left: no forecast request is made. *)
Theorem forecast_needs_coordinates place days u lang st e :
  coordinates_of (fst (_geocode (_clean_place (Some place)) lang st)) = Raise e ->
  get_weather_forecast place days u lang st =
  (Raise e, snd (_geocode (_clean_place (Some place)) lang st)).
Proof.
  unfold get_weather_forecast, coordinates_of. cbv zeta. unfold bind at 1.
  destruct (_geocode (_clean_place (Some place)) lang st) as [[loc|e'] st1];
    cbn [fst snd rbind]; [|now intros [= ->]].
  unfold bind at 1, lift at 1.
  destruct (getitem_key loc (py "latitude")) as [lat|e1];
    cbn [rbind]; [|now intros [= ->]].
  unfold bind at 1, lift at 1.
  destruct (getitem_key loc (py "longitude")) as [lon|e2];
    cbn [rbind]; [discriminate|now intros [= ->]].
Qed.

(** X15: when the location has both coordinates and the forecast request
    fails (no answer, a status outside 2xx, a body that is not JSON), the
    tool raises that error after this one request. *)
Theorem forecast_failure place days u lang st st1 loc lat lon e :
  _geocode (_clean_place (Some place)) lang st = (Ok loc, st1) ->
  coordinates_of (Ok loc) = Ok (lat, lon) ->
  failure_of (fst (http_get (forecast_request lat lon days u) (net st1))) = Some e ->
  get_weather_forecast place days u lang st =
  (Raise e,
   {| net := snd (http_get (forecast_request lat lon days u) (net st1));
      calls := calls st1 ++ [forecast_request lat lon days u] |}).
Proof.
  intros Hg Hc Hf. unfold get_weather_forecast. cbv zeta.
  unfold bind at 1. rewrite Hg.
  unfold coordinates_of in Hc. cbn [rbind] in Hc.
  unfold bind at 1, lift at 1.
  destruct (getitem_key loc (py "latitude")) as [lat'|]; [|discriminate].
  unfold bind at 1, lift at 1. cbn [rbind] in Hc.
  destruct (getitem_key loc (py "longitude")) as [lon'|]; [|discriminate].
  cbn [rbind] in Hc. injection Hc as -> ->.
  unfold bind at 1, client_get. unfold failure_of in Hf.
  destruct (http_get (forecast_request lat lon days u) (net st1)) as [o w].
  cbn [fst snd] in *.
  destruct o as [|status body]; [now injection Hf as <-|].
  unfold bind, lift, raise_for_status, json. cbn [fst snd].
  destruct ((200 <=? status)%Z && (status <=? 299)%Z); [|now injection Hf as <-].
  destruct body; [discriminate|now injection Hf as <-].
Qed.

(** X19: whatever the two services answer, the tool adds to the log
    at most three geocoding requests, the first queries of the cleaned
    place in order, and after them at most one forecast request. *)
Theorem forecast_requests place days u lang st :
  exists k extra,
    k <= 3
    /\ (extra = [] \/ exists lat lon, extra = [forecast_request lat lon days u])
    /\ calls (snd (get_weather_forecast place days u lang st)) =
       calls st
       ++ map (fun q => geocoding_request q lang)
              (firstn k (queries (_clean_place (Some place))))
       ++ extra.
Proof.
  destruct (geocode_calls (_clean_place (Some place)) lang st) as (k & Hk & Hc).
  rewrite clean_place_idempotent in Hc.
  unfold get_weather_forecast. cbv zeta. unfold bind at 1.
  destruct (_geocode (_clean_place (Some place)) lang st) as [[loc|e] st1];
    cbn [snd] in *;
    [|exists k, []; rewrite app_nil_r; auto].
  unfold bind at 1, lift at 1.
  destruct (getitem_key loc (py "latitude")) as [lat|e1];
    [|exists k, []; rewrite app_nil_r; auto].
  unfold bind at 1, lift at 1.
  destruct (getitem_key loc (py "longitude")) as [lon|e2];
    [|exists k, []; rewrite app_nil_r; auto].
  exists k, [forecast_request lat lon days u].
  split; [exact Hk|]. split; [right; now exists lat, lon|].
  rewrite app_assoc, <- Hc.
  unfold bind at 1, client_get.
  destruct (http_get (forecast_request lat lon days u) (net st1)) as [o w].
  destruct o as [|status body]; [reflexivity|].
  unfold bind, lift, ret.
  repeat match goal with
         | |- context [match ?x with Ok _ => _ | Raise _ => _ end] =>
             destruct x; try reflexivity
         end.
Qed.

(** X16: the value arrays are read inside the loop over the dates.
    Without a date the reshaping returns the empty list whatever else the
    answer holds; with a date, a value array that is missing, with those
    read before it present and not empty, raises [KeyError] with its
    name. *)
Theorem reshape_daily_reads_lazily data items times :
  getitem_key data (py "daily") = Ok (VDict items) ->
  lookup (py "time") items = Some (VList times) ->
  (times = [] -> reshape_daily data = Ok [])
  /\ (forall before k after,
        times <> [] ->
        value_keys = before ++ k :: after ->
        (forall k', In k' before ->
                    exists x xs, lookup k' items = Some (VList (x :: xs))) ->
        lookup k items = None ->
        reshape_daily data = Raise (KeyError (VStr k))).
Proof.
  intros Hd Ht. unfold reshape_daily. rewrite Hd. cbn [rbind getitem_key].
  rewrite Ht. cbn [rbind py_len]. split.
  - intros ->. reflexivity.
  - intros before k after Hne Hkeys Hbefore Hk.
    destruct times as [|t times]; [congruence|].
    cbn [List.length seq daily_loop]. unfold daily_entry, daily_at.
    rewrite Hd. cbn [getitem_idx nth_error rbind getitem_key].
    unfold value_keys in Hkeys.
    destruct before as [|k1 [|k2 [|k3 [|k4 before]]]];
      injection Hkeys as <-;
      repeat match goal with
             | H : _ :: _ = _ :: _ |- _ => injection H as <- H
             | H : _ = _ :: _ |- _ => injection H as <- H
             end; subst.
    + now rewrite Hk.
    + destruct (Hbefore _ (or_introl eq_refl)) as (x1 & xs1 & H1).
      rewrite H1. cbn [rbind getitem_idx nth_error]. now rewrite Hk.
    + destruct (Hbefore _ (or_introl eq_refl)) as (x1 & xs1 & H1).
      destruct (Hbefore _ (or_intror (or_introl eq_refl))) as (x2 & xs2 & H2).
      rewrite H1, H2. cbn [rbind getitem_idx nth_error]. now rewrite Hk.
    + destruct (Hbefore _ (or_introl eq_refl)) as (x1 & xs1 & H1).
      destruct (Hbefore _ (or_intror (or_introl eq_refl))) as (x2 & xs2 & H2).
      destruct (Hbefore _ (or_intror (or_intror (or_introl eq_refl)))) as (x3 & xs3 & H3).
      rewrite H1, H2, H3. cbn [rbind getitem_idx nth_error]. now rewrite Hk.
    + exfalso. destruct before; discriminate.
Qed.

End ForecastFacts.

(** ** The demo client *)

Lemma drop_while_repeat p c n (l : pystr) :
  p c = true -> drop_while p (repeat c n ++ l) = drop_while p l.
Proof. intros H. induction n; simpl; [reflexivity|now rewrite H]. Qed.

Lemma rev_repeat_char (c : char) n : rev (repeat c n) = repeat c n.
Proof.
  induction n as [|n IH]; [reflexivity|].
  simpl. rewrite IH. clear IH.
  induction n; simpl; [reflexivity|now f_equal].
Qed.

(** X17: the address of the tool server does not depend on how many
    slashes end [MCP_SERVER_URL]: it is a base that does not end in a
    slash, then [MCP_PATH], then one slash. *)
Theorem server_url_trailing_slashes (base path : pystr) (n : nat) :
  server_url (base ++ repeat (ch "/") n) path = server_url base path
  /\ exists b, server_url base path = b ++ path ++ py "/"
               /\ ends_clean (is_char "/") b = true.
Proof.
  unfold server_url. split.
  - f_equal. unfold rstrip.
    now rewrite rev_app_distr, rev_repeat_char, drop_while_repeat.
  - exists (rstrip (is_char "/") base). split; [reflexivity|].
    apply ends_clean_rstrip.
Qed.

(** ** The further theorems at work *)

Lemma ascii_space_not_digit (c : char) :
  @is_space ascii_builtins c = true -> @is_digit ascii_builtins c = false.
Proof.
  unfold is_space, is_digit, in_range. simpl.
  destruct (c <? 128)%N; [|discriminate].
  destruct (48 <=? c)%N eqn:E1; [|reflexivity].
  destruct (c <=? 57)%N eqn:E2; [|reflexivity].
  apply N.leb_le in E1, E2.
  replace (c <=? 13)%N with false by (symmetry; apply N.leb_gt; lia).
  replace (c <=? 32)%N with false by (symmetry; apply N.leb_gt; lia).
  now rewrite !andb_false_r.
Qed.

(** A place name is not a coordinate pair: it has a letter. *)
Lemma parse_latlon_rejects_witness :
  @_parse_latlon ascii_builtins (py "Copenhagen, DK") = None.
Proof.
  apply (@parse_latlon_rejects ascii_builtins (py "Copenhagen, DK") (ch "C")).
  - left. reflexivity.
  - reflexivity.
Defined.

(** Signs, a fraction and whitespace at every place. *)
Lemma parse_latlon_comma_witness :
  @_parse_latlon ascii_builtins (py " -55.676 , +12  ")
  = Some (py "-55.676", py "+12").
Proof.
  apply (@parse_latlon_comma ascii_builtins ascii_space_not_digit
           (py " ") (py "-55.676") (py " ") (py " ") (py "+12") (py "  "));
    reflexivity.
Defined.

(** A tab and a space between the numbers. *)
Lemma parse_latlon_space_witness :
  @_parse_latlon ascii_builtins (py "55.676" ++ [9%N; 32%N; 9%N] ++ py "12.568")
  = Some (py "55.676", py "12.568").
Proof.
  apply (@parse_latlon_space ascii_builtins ascii_space_not_digit
           [] (py "55.676") [9%N; 32%N; 9%N] (py "12.568") []);
    try reflexivity.
  right. left. reflexivity.
Defined.

(** The fallback of the description: the full text finds nothing, the
    part before the comma does, the third query is not sent. *)
Lemma geocode_first_hit_witness :
  fst (@_geocode ascii_builtins scripted (py "Paris, FR") (py "en")
         (start [nothing_found; paris_found; unavailable]))
  = Ok (VDict [(py "name", VStr (py "Paris"));
               (py "country", VStr (py "France"));
               (py "latitude", VInt 48);
               (py "longitude", VInt 2)])
  /\ names_of (calls (snd (@_geocode ascii_builtins scripted (py "Paris, FR") (py "en")
                             (start [nothing_found; paris_found; unavailable]))))
     = [Some (VStr (py "Paris, FR")); Some (VStr (py "Paris"))].
Proof.
  rewrite (@geocode_first_hit ascii_builtins scripted (py "Paris, FR") (py "en")
             (start [nothing_found; paris_found; unavailable])
             [py "Paris, FR"] (py "Paris") [py "Paris  FR"] 200
             [(py "results",
               VList [VDict [(py "name", VStr (py "Paris"));
                             (py "country", VStr (py "France"));
                             (py "latitude", VInt 48);
                             (py "longitude", VInt 2)]])]
             (VDict [(py "name", VStr (py "Paris"));
                     (py "country", VStr (py "France"));
                     (py "latitude", VInt 48);
                     (py "longitude", VInt 2)])
             [] eq_refl eq_refl eq_refl eq_refl ltac:(lia) eq_refl).
  split; reflexivity.
Defined.

(** The server goes down at the second lookup. *)
Lemma geocode_failure_stops_witness :
  fst (@_geocode ascii_builtins scripted (py "Paris, FR") (py "en")
         (start [nothing_found; unavailable; paris_found]))
  = Raise (HTTPStatusError 503)
  /\ names_of (calls (snd (@_geocode ascii_builtins scripted (py "Paris, FR") (py "en")
                             (start [nothing_found; unavailable; paris_found]))))
     = [Some (VStr (py "Paris, FR")); Some (VStr (py "Paris"))].
Proof.
  rewrite (@geocode_failure_stops ascii_builtins scripted (py "Paris, FR") (py "en")
             (start [nothing_found; unavailable; paris_found])
             [py "Paris, FR"] (py "Paris") [py "Paris  FR"] (HTTPStatusError 503)
             eq_refl eq_refl eq_refl eq_refl).
  split; reflexivity.
Defined.

Lemma queries_plain_text_twice_witness :
  @queries ascii_builtins (py "Qwzxylopolis") = [py "Qwzxylopolis"; py "Qwzxylopolis"].
Proof.
  apply (@queries_plain_text_twice ascii_builtins (py "Qwzxylopolis")).
  - unfold normal_form. split; [|split]; reflexivity.
  - discriminate.
  - reflexivity.
  - reflexivity.
Defined.

(** A coordinate pair with blanks around it: one request. *)
Lemma forecast_for_coordinates_witness :
  names_of (calls (snd (@get_weather_forecast ascii_builtins scripted
                          (py " 55.676,12.568 ") 2 UnitC (py "en") (start [two_days]))))
  = [None]
  /\ rbind (fst (@get_weather_forecast ascii_builtins scripted
                   (py " 55.676,12.568 ") 2 UnitC (py "en") (start [two_days])))
           (fun res => getitem_key res (py "location"))
     = Ok (VDict [(py "name", VStr (py "55.676,12.568"));
                  (py "country", VNone);
                  (py "admin1", VNone);
                  (py "latitude", VFloat (py "55.676" : @pyfloat ascii_builtins));
                  (py "longitude", VFloat (py "12.568" : @pyfloat ascii_builtins));
                  (py "timezone", VStr (py "Europe/Paris"))]).
Proof.
  rewrite (@forecast_for_coordinates ascii_builtins scripted
             (py " 55.676,12.568 ") 2 UnitC (py "en") (start [two_days])
             (py "55.676") (py "12.568") 200 _ _ eq_refl eq_refl ltac:(lia) eq_refl).
  split; reflexivity.
Defined.

(** A name that is found and a forecast of two days. *)
Lemma forecast_assembled_witness :
  rbind (fst (@get_weather_forecast ascii_builtins scripted
                (py " Paris ") 2 UnitC (py "en") (start [paris_found; two_days])))
        (fun res => getitem_key res (py "location"))
  = Ok (VDict [(py "name", VStr (py "Paris"));
               (py "country", VStr (py "France"));
               (py "admin1", VNone);
               (py "latitude", VInt 48);
               (py "longitude", VInt 2);
               (py "timezone", VStr (py "Europe/Paris"))]).
Proof.
  rewrite (@forecast_assembled ascii_builtins scripted
             (py " Paris ") 2 UnitC (py "en") (start [paris_found; two_days])
             _ _ (VInt 48) (VInt 2) 200 _ _ eq_refl eq_refl eq_refl eq_refl
             ltac:(lia) eq_refl).
  reflexivity.
Defined.

(** A location without longitude: the forecast service is not asked. *)
Lemma forecast_needs_coordinates_witness :
  @get_weather_forecast ascii_builtins scripted (py "Paris") 2 UnitC (py "en")
    (start [no_longitude; two_days])
  = (Raise (KeyError (VStr (py "longitude"))),
     @Build_state ascii_builtins scripted [two_days]
       [geocoding_request (py "Paris") (py "en")]).
Proof.
  apply (@forecast_needs_coordinates ascii_builtins scripted (py "Paris") 2 UnitC (py "en")
           (start [no_longitude; two_days]) (KeyError (VStr (py "longitude")))).
  reflexivity.
Defined.

(** The forecast service is down. *)
Lemma forecast_failure_witness :
  fst (@get_weather_forecast ascii_builtins scripted (py "Paris") 2 UnitC (py "en")
         (start [paris_found; unavailable]))
  = Raise (HTTPStatusError 503).
Proof.
  rewrite (@forecast_failure ascii_builtins scripted (py "Paris") 2 UnitC (py "en")
             (start [paris_found; unavailable]) _ _ (VInt 48) (VInt 2)
             (HTTPStatusError 503) eq_refl eq_refl eq_refl).
  reflexivity.
Defined.

(** No dates and nothing else; a date and no minimum temperatures. *)
Lemma reshape_daily_reads_lazily_witness :
  reshape_daily no_dates = Ok []
  /\ reshape_daily no_minimum = Raise (KeyError (VStr (py "temperature_2m_min"))).
Proof.
  split.
  - apply (@reshape_daily_reads_lazily ascii_builtins no_dates
             [(py "time", VList [])] [] eq_refl eq_refl).
    reflexivity.
  - apply (@reshape_daily_reads_lazily ascii_builtins no_minimum
             [(py "time", VList [VStr (py "2024-05-01")]);
              (py "temperature_2m_max", VList [VInt 5])]
             [VStr (py "2024-05-01")] eq_refl eq_refl)
      with (before := [py "temperature_2m_max"])
           (after := [py "precipitation_sum"; py "weathercode"]).
    + discriminate.
    + reflexivity.
    + intros k' [<-|[]]. now exists (VInt 5), [].
    + reflexivity.
Defined.
